(** * The Cypress configuration transformer

    A shallow embedding of
    [packages/cypress/src/utils/config/change-config-transformer.ts]:
    the class [CypressConfigTransformer] with its two entry points
    [removeProperties] and [addOrUpdateProperties], the recursive
    [buildMetadataFromConfig], and the two helpers
    [fromLiteralToPrimitive] and [createPropertyAssignment].

    The TypeScript compiler API ([createSourceFile], [createPrinter],
    the node factory) is a library of the program, not part of it.  The
    transformer is therefore embedded in two layers.  The inner layer,
    [removeProperties] and [addOrUpdateProperties], is all the source
    does between the two library calls: it maps the parsed tree to the
    tree that is handed to the printer.  The outer layer,
    [CypressConfigTransformer.removeProperties] and
    [CypressConfigTransformer.addOrUpdateProperties], is the entry
    points as they are called, from text to text, with the parser and
    the printer as parameters.  What a statement about a returned tree
    says of the returned text depends on the printed tree reading back
    as itself; no such thing is assumed silently, and the printer does
    not grant it for every tree the transformer builds (see
    [isIdentifierName]). *)

From Stdlib Require Import String Ascii List Bool NArith ZArith Arith Lia Permutation.
Import ListNotations.
Local Open Scope string_scope.
Local Open Scope list_scope.

Set Warnings "-register-all".

(** ** Thrown errors

    The source has no [throw] statement.  The only way a call fails is
    a JavaScript [TypeError] raised by dereferencing [undefined] after
    an unchecked [as] cast. *)

Inductive Error : Type :=
| TypeError.

Inductive Result (A : Type) : Type :=
| Ok (a : A)
| Throw (e : Error).

Arguments Ok {A} a.
Arguments Throw {A} e.

Definition bind {A B : Type} (r : Result A) (k : A -> Result B) : Result B :=
  match r with
  | Ok a => k a
  | Throw e => Throw e
  end.

Declare Scope result_scope.
Delimit Scope result_scope with result.
Notation "'let*' x ':=' r 'in' k" := (bind r (fun x => k))
  (at level 10, x name, r at level 100, k at level 200) : result_scope.
Local Open Scope result_scope.

Fixpoint mapM {A B : Type} (f : A -> Result B) (l : list A) : Result (list B) :=
  match l with
  | [] => Ok []
  | x :: r =>
      let* y := f x in
      let* ys := mapM f r in
      Ok (y :: ys)
  end.

(** ** Syntax trees

    The expression kinds the transformer tells apart.  A numeric
    literal carries the number its text denotes.  The model covers the
    non-negative integer numerals only: [Number(text)] and
    [createNumericLiteral] are exact inverses on those up to 2^53;
    above, [Number] rounds to a double and the model does not follow
    it.  A negative number is no numeric literal at all: it is written
    as a literal with a sign in its text and read again as a prefix
    expression, which the model cannot state.  [Identifier] stands for
    the node kinds other than string literals that own a [text] field,
    [ArrayLiteralExpression] and [NullKeyword] for kinds that own
    none.  An object literal holds property assignments
    [name: initializer] with identifier names, the only members the
    source's casts are right about. *)

Inductive Expression : Type :=
| NumericLiteral (value : N)
| TrueKeyword
| FalseKeyword
| StringLiteral (text : string)
| Identifier (text : string)
| NullKeyword
| ArrayLiteralExpression (elements : list Expression)
| ObjectLiteralExpression (properties : list (string * Expression))
| CallExpression (expression : Expression) (arguments : list Expression).

Definition PropertyAssignment : Type := (string * Expression)%type.

(** A node of the file is an export assignment ([export default e] or
    [export = e]) or any other node, kept with its own text and its
    children. *)

Inductive Node : Type :=
| ExportAssignment (expression : Expression)
| OtherNode (text : string) (children : list Node).

Definition SourceFile : Type := list Node.

(** ** JavaScript values

    What [createPropertyAssignment] receives as [value: unknown] and
    what the metadata map stores.  [VObject] is a plain object, listed
    in [Object.entries] order; [VMap] is a [Map], listed in insertion
    order. *)

Inductive Value : Type :=
| VUndefined
| VNumber (n : N)
| VString (s : string)
| VBoolean (b : bool)
| VObject (entries : list (string * Value))
| VMap (entries : list (string * Value)).

Definition MetadataMap : Type := list (string * Value).

(** [Map.prototype.get]: [undefined] for a key that is absent. *)
Fixpoint map_get (k : string) (m : MetadataMap) : Value :=
  match m with
  | [] => VUndefined
  | (k', v) :: r => if String.eqb k k' then v else map_get k r
  end.

(** [Map.prototype.set]: a known key keeps its place, a new key goes
    last. *)
Fixpoint map_set (k : string) (v : Value) (m : MetadataMap) : MetadataMap :=
  match m with
  | [] => [(k, v)]
  | (k', v') :: r =>
      if String.eqb k k' then (k', v) :: r else (k', v') :: map_set k v r
  end.

Definition keys (m : MetadataMap) : list string := map fst m.
Definition values (m : MetadataMap) : list Value := map snd m.

(** [Array.prototype.includes] on property paths. *)
Definition includes (l : list string) (p : string) : bool :=
  existsb (String.eqb p) l.

(** ** Constants *)

Definition devServerPositionalArgument : list string := ["tsConfig"; "compiler"].

(** ** [fromLiteralToPrimitive] *)

Definition isNumericLiteral (e : Expression) : bool :=
  match e with NumericLiteral _ => true | _ => false end.

(** Modelled from the spec: [isBooleanLiteral] of [./transformer.helper],
    which is not among the sources; the spec speaks of "a boolean-literal
    node", the [true] and [false] keywords. *)
Definition isBooleanLiteral (e : Expression) : bool :=
  match e with TrueKeyword | FalseKeyword => true | _ => false end.

Definition isObjectLiteralExpression (e : Expression) : bool :=
  match e with ObjectLiteralExpression _ => true | _ => false end.

Definition isCallExpression (e : Expression) : bool :=
  match e with CallExpression _ _ => true | _ => false end.

(** The [text] field read through the cast [(node as StringLiteral).text]:
    the cast checks nothing, so the read yields the text of any node
    that has one and [undefined] otherwise. *)
Definition text_field (e : Expression) : Value :=
  match e with
  | StringLiteral s => VString s
  | Identifier s => VString s
  | _ => VUndefined
  end.

Definition fromLiteralToPrimitive (nodeInitializer : Expression) : Value :=
  if isNumericLiteral nodeInitializer then
    match nodeInitializer with
    | NumericLiteral n => VNumber n
    | _ => VUndefined
    end
  else if isBooleanLiteral nodeInitializer then
    match nodeInitializer with
    | TrueKeyword => VBoolean true
    | FalseKeyword => VBoolean false
    | _ => text_field nodeInitializer
    end
  else text_field nodeInitializer.

(** ** [buildMetadataFromConfig]

    The source is one recursive method whose [for] loop visits the
    properties of an object literal.  [visitProperty] is the body of
    that loop for one property; the loop itself is [visitProperties].
    The recursion descends into the initializer, so it is written on
    the initializer; [buildMetadataFromConfig] below is the method as
    the source calls it.

    A [Map] is mutated in place by the source.  Here the method takes
    the map and returns the map after the loop; a nested map that is
    extended in place is written back at its key, which keeps the place
    of the key as the mutation does. *)

Definition propertyPathOf (parentPrefix assignmentName : string) : string :=
  if String.eqb parentPrefix "" then assignmentName
  else parentPrefix ++ "." ++ assignmentName.

(** A [for ... of] loop over a list that threads a state and stops at
    the first throw; the second form hands the index to the body, as
    [Array.prototype.map] does. *)
Fixpoint forEach {A S : Type} (body : A -> S -> Result S) (l : list A) (s : S)
  : Result S :=
  match l with
  | [] => Ok s
  | x :: r => let* s' := body x s in forEach body r s'
  end.

Fixpoint forEachIndexed {A S : Type} (body : nat -> A -> S -> Result S)
         (index : nat) (l : list A) (s : S) : Result S :=
  match l with
  | [] => Ok s
  | x :: r =>
      let* s' := body index x s in
      forEachIndexed body (Datatypes.S index) r s'
  end.

(** What the recursive call finds in [assignment.initializer] after the
    devServer rewriting: the loop over its properties when it is an
    object literal, nothing otherwise. *)
Definition Children : Type := option (MetadataMap -> Result MetadataMap).

Section Builder.

Variable propertiesToRemove : list string.

Fixpoint visitProperty (parentPrefix assignmentName : string)
         (initializer : Expression) (metadataMap : MetadataMap)
         {struct initializer} : Result MetadataMap :=
  let propertyPath := propertyPathOf parentPrefix assignmentName in
  if includes propertiesToRemove propertyPath then Ok metadataMap
  else
    let* children :=
      match initializer return Result Children with
      | ObjectLiteralExpression ps =>
          Ok (Some (forEach (fun p => visitProperty propertyPath (fst p) (snd p))
                            ps))
      | CallExpression _ args =>
          if String.eqb assignmentName "devServer" then
            (* the call is rewritten to an object literal that names
               argument [index] [devServerPositionalArgument[index]];
               createIdentifier(undefined) throws for a third argument *)
            if Nat.ltb (length devServerPositionalArgument) (length args)
            then Throw TypeError
            else
              Ok (Some (forEachIndexed
                          (fun index arg m =>
                             match nth_error devServerPositionalArgument index with
                             | Some name => visitProperty propertyPath name arg m
                             | None => Throw TypeError
                             end)
                          0 args))
          else Ok None
      | _ => Ok None
      end in
    match map_get assignmentName metadataMap with
    | VMap existingMetadata =>
        match children with
        | Some recurse =>
            let* merged := recurse existingMetadata in
            Ok (map_set assignmentName (VMap merged) metadataMap)
        | None =>
            (* [config.properties] of a node that is no object literal
               is undefined, and [for ... of undefined] throws *)
            Throw TypeError
        end
    | VUndefined =>
        match children with
        | Some recurse =>
            let* childMetadataMap := recurse [] in
            Ok (map_set assignmentName (VMap childMetadataMap) metadataMap)
        | None =>
            Ok (map_set assignmentName (fromLiteralToPrimitive initializer)
                        metadataMap)
        end
    | _ => Ok metadataMap
    end.

Definition visitProperties (parentPrefix : string)
           (ps : list PropertyAssignment) (m : MetadataMap)
  : Result MetadataMap :=
  forEach (fun p => visitProperty parentPrefix (fst p) (snd p)) ps m.

(** [config] arrives through an unchecked cast; its [properties] are
    undefined, and the loop throws, unless it is an object literal. *)
Definition buildMetadataFromConfig (config : Expression)
           (metadataMap : MetadataMap) (parentPrefix : string)
  : Result MetadataMap :=
  match config with
  | ObjectLiteralExpression ps => visitProperties parentPrefix ps metadataMap
  | _ => Throw TypeError
  end.

End Builder.

(** ** [createPropertyAssignment]

    [createStringLiteral] is handed the values of the devServer map as
    they are (see the TODO of the source); a value that is no string
    makes a literal whose text is no string, which the printer cannot
    escape.  A value on which the [switch] has no case makes the
    function return [undefined], and the array of properties holding
    it is dereferenced by whoever reads it next.  Both are a
    [TypeError] here, raised where the node is made.  The source raises
    the first of them later, when the printer meets the node, and not
    at all when the node never reaches the printer (a new configuration
    loaded for a document without export assignment): on a devServer
    map with a value that is no string the model is stricter than the
    source, and statements about an upsert are made where the new
    configuration loads in the model.

    Every key is written through [createIdentifier], as it is, and so
    becomes the [text] of the property's name. *)

Definition createStringLiteral (v : Value) : Result Expression :=
  match v with
  | VString s => Ok (StringLiteral s)
  | _ => Throw TypeError
  end.

Fixpoint createPropertyAssignment (key : string) (value : Value)
         {struct value} : Result PropertyAssignment :=
  let fix entries_loop (es : list (string * Value))
      : Result (list PropertyAssignment) :=
    match es with
    | [] => Ok []
    | (configKey, configValue) :: r =>
        let* p := createPropertyAssignment configKey configValue in
        let* ps := entries_loop r in
        Ok (p :: ps)
    end in
  match value with
  | VMap es =>
      if String.eqb key "devServer" then
        let* args := mapM createStringLiteral (values es) in
        Ok ("devServer", CallExpression (Identifier "componentDevServer") args)
      else
        let* ps := entries_loop es in
        Ok (key, ObjectLiteralExpression ps)
  | VNumber n => Ok (key, NumericLiteral n)
  | VString s => Ok (key, StringLiteral s)
  | VBoolean b => Ok (key, if b then TrueKeyword else FalseKeyword)
  | VObject es =>
      let* ps := entries_loop es in
      Ok (key, ObjectLiteralExpression ps)
  | VUndefined => Throw TypeError
  end.

(** [createObjectLiteralExpression(entries.map(createPropertyAssignment))],
    as both the transformer factory and the visitor build it. *)
Definition createConfigLiteral (entries : list (string * Value))
  : Result Expression :=
  let* ps := mapM (fun kv => createPropertyAssignment (fst kv) (snd kv)) entries in
  Ok (ObjectLiteralExpression ps).

(** ** The class and its static fields *)

Record Static : Type := mkStatic {
  configMetadataMap : MetadataMap;
  propertiesToRemove : list string;
  sourceFile : SourceFile
}.

Definition set_configMetadataMap (m : MetadataMap) (st : Static) : Static :=
  mkStatic m (propertiesToRemove st) (sourceFile st).

Definition set_propertiesToRemove (l : list string) (st : Static) : Static :=
  mkStatic (configMetadataMap st) l (sourceFile st).

Definition set_sourceFile (f : SourceFile) (st : Static) : Static :=
  mkStatic (configMetadataMap st) (propertiesToRemove st) f.

Inductive Change : Type :=
| Upsert (newConfig : list (string * Value)) (overwrite : bool)
| Delete.

(** [change.type === 'delete' || (change.type === 'upsert' && !change.overwrite)] *)
Definition readsExisting (change : Change) : bool :=
  match change with
  | Delete => true
  | Upsert _ overwrite => negb overwrite
  end.

(** The visitor's branch for an export assignment: the call that
    [updateCallExpression] returns, and [visitExportAssignment], the
    node that [updateExportAssignment] returns. *)
Definition updateExport (change : Change) (expression : Expression)
           (st : Static) : Result (Expression * Static) :=
  match expression with
  | CallExpression callee args =>
      let* st' :=
        if readsExisting change then
          match args with
          | rootConfigNode :: _ =>
              let* m := buildMetadataFromConfig (propertiesToRemove st)
                          rootConfigNode (configMetadataMap st) "" in
              Ok (set_configMetadataMap m st)
          | [] => Throw TypeError
          end
        else Ok st in
      let* config := createConfigLiteral (configMetadataMap st') in
      Ok (CallExpression callee [config], st')
  | _ =>
      (* [callExpression.arguments] is undefined, reading [0] throws *)
      Throw TypeError
  end.

Definition visitExportAssignment (change : Change) (expression : Expression)
           (st : Static) : Result (Node * Static) :=
  let* est := updateExport change expression st in
  Ok (ExportAssignment (fst est), snd est).

Fixpoint nodeVisitor (change : Change) (node : Node) (st : Static)
         {struct node} : Result (Node * Static) :=
  match node with
  | ExportAssignment expression => visitExportAssignment change expression st
  | OtherNode text children =>
      let fix visitEachChild (ns : list Node) (st : Static)
          : Result (list Node * Static) :=
        match ns with
        | [] => Ok ([], st)
        | n :: r =>
            let* nst := nodeVisitor change n st in
            let* rst := visitEachChild r (snd nst) in
            Ok (fst nst :: fst rst, snd rst)
        end in
      let* cst := visitEachChild children st in
      Ok (OtherNode text (fst cst), snd cst)
  end.

(** The visit of the source file node itself: no export assignment, so
    its statements are visited in order. *)
Fixpoint visitStatements (change : Change) (ns : list Node) (st : Static)
  : Result (list Node * Static) :=
  match ns with
  | [] => Ok ([], st)
  | n :: r =>
      let* nst := nodeVisitor change n st in
      let* rst := visitStatements change r (snd nst) in
      Ok (fst nst :: fst rst, snd rst)
  end.

(** [changePropertiesTransformer(change)] applied by [transform] to the
    source file: the factory first loads the new configuration into the
    metadata map, then the visitor runs. *)
Definition changePropertiesTransformer (change : Change) (file : SourceFile)
           (st : Static) : Result (SourceFile * Static) :=
  let* st' :=
    match change with
    | Upsert newConfig _ =>
        let* newConfigAst := createConfigLiteral newConfig in
        let* m := buildMetadataFromConfig (propertiesToRemove st) newConfigAst
                    (configMetadataMap st) "" in
        Ok (set_configMetadataMap m st)
    | Delete => Ok st
    end in
  visitStatements change file st'.

Definition removeProperties (existingConfigContent : SourceFile)
           (toRemove : list string) (st : Static)
  : Result (SourceFile * Static) :=
  let st := set_configMetadataMap [] st in
  let st := set_propertiesToRemove toRemove st in
  let st := set_sourceFile existingConfigContent st in
  changePropertiesTransformer Delete (sourceFile st) st.

Definition addOrUpdateProperties (existingConfigContent : SourceFile)
           (newConfig : list (string * Value)) (overwrite : bool) (st : Static)
  : Result (SourceFile * Static) :=
  let st := set_configMetadataMap [] st in
  let st := set_propertiesToRemove [] st in
  let st := set_sourceFile existingConfigContent st in
  changePropertiesTransformer (Upsert newConfig overwrite) (sourceFile st) st.

(** The tree an entry point hands to the printer, without the statics
    it leaves. *)
Definition returned (r : Result (SourceFile * Static)) : Result SourceFile :=
  let* fs := r in Ok (fst fs).

(** ** The entry points, from text to text

    [removeProperties] (lines 70-89) and [addOrUpdateProperties]
    (lines 91-115) in full: [createSourceFile] parses the text, the
    transformer runs on the tree, [createPrinter().printFile] prints
    the transformed tree.  Parser and printer are the compiler's; they
    are parameters here.  In each body the unqualified name is the
    inner layer defined above. *)

Module CypressConfigTransformer.

Section Compiler.

Variable Text : Type.
Variable createSourceFile : Text -> SourceFile.
Variable printFile : SourceFile -> Text.

Definition removeProperties (existingConfigContent : Text)
           (toRemove : list string) (st : Static) : Result (Text * Static) :=
  let* transformedResult :=
    removeProperties (createSourceFile existingConfigContent) toRemove st in
  Ok (printFile (fst transformedResult), snd transformedResult).

Definition addOrUpdateProperties (existingConfigContent : Text)
           (newConfig : list (string * Value)) (overwrite : bool) (st : Static)
  : Result (Text * Static) :=
  let* transformedResult :=
    addOrUpdateProperties (createSourceFile existingConfigContent)
                          newConfig overwrite st in
  Ok (printFile (fst transformedResult), snd transformedResult).

(** The text an entry point returns, without the statics it leaves. *)
Definition returned (r : Result (Text * Static)) : Result Text :=
  let* ts := r in Ok (fst ts).

End Compiler.

Arguments removeProperties {Text} createSourceFile printFile
  existingConfigContent toRemove st.
Arguments addOrUpdateProperties {Text} createSourceFile printFile
  existingConfigContent newConfig overwrite st.
Arguments returned {Text} r.

End CypressConfigTransformer.

(** ** Notions of the specification

    The export assignments of a file in the order the visitor meets
    them, the file with the exported expressions blanked out (all that
    the visitor must leave alone), the recognized export (the one
    exported call whose first argument is an object literal) and its
    decoded configuration. *)

Fixpoint exportsOfNode (n : Node) : list Expression :=
  match n with
  | ExportAssignment e => [e]
  | OtherNode _ cs => flat_map exportsOfNode cs
  end.

Definition exportAssignments (file : SourceFile) : list Expression :=
  flat_map exportsOfNode file.

Fixpoint skeletonOfNode (n : Node) : Node :=
  match n with
  | ExportAssignment _ => ExportAssignment NullKeyword
  | OtherNode t cs => OtherNode t (map skeletonOfNode cs)
  end.

Definition skeleton (file : SourceFile) : SourceFile := map skeletonOfNode file.

Definition recognizedExport (file : SourceFile) : option Expression :=
  match exportAssignments file with
  | [CallExpression _ (ObjectLiteralExpression ps :: _)] =>
      Some (ObjectLiteralExpression ps)
  | _ => None
  end.

(** Decoding reads a configuration literal into an empty map with
    nothing to remove. *)
Definition decode (config : Expression) : Result MetadataMap :=
  buildMetadataFromConfig [] config [] "".

Definition decodedConfiguration (file : SourceFile) : option (Result MetadataMap) :=
  option_map decode (recognizedExport file).

(** The decoded configuration of a text is that of its parse; a tree
    reads back when the parse of its print is the tree itself. *)
Definition decodedConfigurationOfText {Text : Type}
           (createSourceFile : Text -> SourceFile) (content : Text)
  : option (Result MetadataMap) :=
  decodedConfiguration (createSourceFile content).

Definition readsBack {Text : Type} (createSourceFile : Text -> SourceFile)
           (printFile : SourceFile -> Text) (file : SourceFile) : Prop :=
  createSourceFile (printFile file) = file.





(** The sample documents of the specification. *)

Definition num (n : N) : Expression := NumericLiteral n.

Definition config_a_bxy : Expression :=
  ObjectLiteralExpression
    [("a", num 1); ("b", ObjectLiteralExpression [("x", num 1); ("y", num 2)])].

Definition config_bx : Expression :=
  ObjectLiteralExpression [("b", ObjectLiteralExpression [("x", num 1)])].

Definition defineConfig (config : Expression) : SourceFile :=
  [OtherNode "import { defineConfig } from 'cypress';" [];
   ExportAssignment (CallExpression (Identifier "defineConfig") [config])].

(** The value nodes the specification calls unsupported at a property
    named [name]: neither a numeric, boolean or string literal, nor an
    object literal, nor the positional call of the reserved key. *)
Definition unsupportedValue (name : string) (e : Expression) : bool :=
  match e with
  | Identifier _ | NullKeyword | ArrayLiteralExpression _ => true
  | CallExpression _ _ => negb (String.eqb name "devServer")
  | _ => false
  end.

(** The record the reserved key decodes to, and the document of the
    test suite cut down to the reserved key. *)
Definition devServerRecord (tsConfig compiler : string) : Value :=
  VMap [("tsConfig", VString tsConfig); ("compiler", VString compiler)].

Definition componentDevServer (args : list Expression) : Expression :=
  CallExpression (Identifier "componentDevServer") args.

Definition config_component_devServer : Expression :=
  ObjectLiteralExpression
    [("component",
      ObjectLiteralExpression
        [("devServer",
          componentDevServer [StringLiteral "tsconfig.json";
                              StringLiteral "babel"])])].

(** A document with imports and no export. *)
Definition onlyImports : SourceFile :=
  [OtherNode "import { defineConfig } from 'cypress';" []].

Definition st0 : Static := mkStatic [] [] [].

(** The new configuration [{b: {x: 9}}] of the upsert samples. *)
Definition newConfig_bx9 : list (string * Value) :=
  [("b", VObject [("x", VNumber 9)])].

(** The export assignments of a file updated one after the other, as
    the visitor does on its way through the file. *)
Fixpoint updateExports (change : Change) (es : list Expression) (st : Static)
  : Result (list Expression * Static) :=
  match es with
  | [] => Ok ([], st)
  | e :: r =>
      let* est := updateExport change e st in
      let* rst := updateExports change r (snd est) in
      Ok (fst est :: fst rst, snd rst)
  end.

(** What the transformer factory does with the new configuration:
    encode it as an object literal and read that into the fresh map. *)
Definition loadNewConfig (newConfig : list (string * Value)) : Result MetadataMap :=
  let* newConfigAst := createConfigLiteral newConfig in
  buildMetadataFromConfig [] newConfigAst [] "".

(** What a visit does, told by what happens to the export assignments. *)
Definition visit_outcome {A : Type} (exportsOf : A -> list Expression)
           (skel : A -> A) (change : Change) (x : A) (st : Static)
           (r : Result (A * Static)) : Prop :=
  match updateExports change (exportsOf x) st with
  | Ok (es', st') =>
      exists x', r = Ok (x', st') /\ exportsOf x' = es' /\ skel x' = skel x
  | Throw e => r = Throw e
  end.

(** ** Well-formed documents and canonical literals

    TypeScript rejects an object literal that names a property twice.
    [duplicateFree] holds of the expressions whose object literals name
    every property once, at every depth. *)

Fixpoint distinct (l : list string) : bool :=
  match l with
  | [] => true
  | x :: r => negb (existsb (String.eqb x) r) && distinct r
  end.




(** The two halves of the body of [visitProperty], named for the
    proofs. *)
Definition childrenOf (toRemove : list string) (propertyPath name : string)
           (initializer : Expression) : Result Children :=
  match initializer with
  | ObjectLiteralExpression ps =>
      Ok (Some (visitProperties toRemove propertyPath ps))
  | CallExpression _ args =>
      if String.eqb name "devServer" then
        if Nat.ltb (length devServerPositionalArgument) (length args)
        then Throw TypeError
        else
          Ok (Some (forEachIndexed
                      (fun index arg m =>
                         match nth_error devServerPositionalArgument index with
                         | Some name' =>
                             visitProperty toRemove propertyPath name' arg m
                         | None => Throw TypeError
                         end)
                      0 args))
      else Ok None
  | _ => Ok None
  end.

Definition storeProperty (children : Children) (name : string)
           (initializer : Expression) (m : MetadataMap) : Result MetadataMap :=
  match map_get name m with
  | VMap existingMetadata =>
      match children with
      | Some recurse =>
          let* merged := recurse existingMetadata in
          Ok (map_set name (VMap merged) m)
      | None => Throw TypeError
      end
  | VUndefined =>
      match children with
      | Some recurse =>
          let* childMetadataMap := recurse [] in
          Ok (map_set name (VMap childMetadataMap) m)
      | None => Ok (map_set name (fromLiteralToPrimitive initializer) m)
      end
  | _ => Ok m
  end.




(** The decoded configurations of the samples. *)
Definition decoded_a_bxy : MetadataMap :=
  [("a", VNumber 1); ("b", VMap [("x", VNumber 1); ("y", VNumber 2)])].

Definition decoded_bx : MetadataMap := [("b", VMap [("x", VNumber 1)])].

(** What removal is meant to do, told on the decoded configuration:
    drop every entry whose dotted path is listed, at any depth. *)
Fixpoint pruneValue (toRemove : list string) (path : string) (v : Value)
  : Value :=
  match v with
  | VMap es =>
      VMap ((fix pruneEntries (es : list (string * Value)) : list (string * Value) :=
               match es with
               | [] => []
               | (k, w) :: r =>
                   if includes toRemove (propertyPathOf path k)
                   then pruneEntries r
                   else (k, pruneValue toRemove (propertyPathOf path k) w)
                          :: pruneEntries r
               end) es)
  | _ => v
  end.

Fixpoint prune (toRemove : list string) (prefix : string) (m : MetadataMap)
  : MetadataMap :=
  match m with
  | [] => []
  | (k, w) :: r =>
      if includes toRemove (propertyPathOf prefix k)
      then prune toRemove prefix r
      else (k, pruneValue toRemove (propertyPathOf prefix k) w)
             :: prune toRemove prefix r
  end.

(** The claim that removal acts as [prune] does, for one property. *)
Definition removal_prunes_at (toRemove : list string) (e : Expression) : Prop :=
  forall p n m m1,
    visitProperty [] p n e m = Ok m1 ->
    visitProperty toRemove p n e (prune toRemove p m)
    = Ok (prune toRemove p m1).

(** Two ways to descend into an initializer, the second doing on the
    pruned map what the first does on the map. *)
Definition children_pruned (toRemove : list string) (path : string)
           (c cR : Children) : Prop :=
  match c, cR with
  | Some recurse, Some recurseR =>
      forall x x1,
        recurse x = Ok x1 ->
        recurseR (prune toRemove path x) = Ok (prune toRemove path x1)
  | None, None => True
  | _, _ => False
  end.

(** ** Induction on expressions and on the nodes of a file *)

Section ExpressionInduction.

Variable P : Expression -> Prop.
Hypothesis P_numeric : forall n, P (NumericLiteral n).
Hypothesis P_true : P TrueKeyword.
Hypothesis P_false : P FalseKeyword.
Hypothesis P_string : forall s, P (StringLiteral s).
Hypothesis P_identifier : forall s, P (Identifier s).
Hypothesis P_null : P NullKeyword.
Hypothesis P_array : forall es, Forall P es -> P (ArrayLiteralExpression es).
Hypothesis P_object :
  forall ps, Forall (fun p => P (snd p)) ps -> P (ObjectLiteralExpression ps).
Hypothesis P_call :
  forall f args, P f -> Forall P args -> P (CallExpression f args).

Fixpoint Expression_nested_ind (e : Expression) : P e :=
  match e with
  | NumericLiteral n => P_numeric n
  | TrueKeyword => P_true
  | FalseKeyword => P_false
  | StringLiteral s => P_string s
  | Identifier s => P_identifier s
  | NullKeyword => P_null
  | ArrayLiteralExpression es =>
      P_array es
        ((fix all (l : list Expression) : Forall P l :=
            match l with
            | [] => Forall_nil P
            | x :: r => Forall_cons x (Expression_nested_ind x) (all r)
            end) es)
  | ObjectLiteralExpression ps =>
      P_object ps
        ((fix all (l : list (string * Expression))
            : Forall (fun p => P (snd p)) l :=
            match l with
            | [] => Forall_nil _
            | x :: r =>
                Forall_cons x (Expression_nested_ind (snd x)) (all r)
            end) ps)
  | CallExpression f args =>
      P_call f args (Expression_nested_ind f)
        ((fix all (l : list Expression) : Forall P l :=
            match l with
            | [] => Forall_nil P
            | x :: r => Forall_cons x (Expression_nested_ind x) (all r)
            end) args)
  end.

End ExpressionInduction.

Section NodeInduction.

Variable P : Node -> Prop.
Hypothesis P_export : forall e, P (ExportAssignment e).
Hypothesis P_other : forall t cs, Forall P cs -> P (OtherNode t cs).

Fixpoint Node_nested_ind (n : Node) : P n :=
  match n with
  | ExportAssignment e => P_export e
  | OtherNode t cs =>
      P_other t cs
        ((fix all (l : list Node) : Forall P l :=
            match l with
            | [] => Forall_nil P
            | x :: r => Forall_cons x (Node_nested_ind x) (all r)
            end) cs)
  end.

End NodeInduction.

(** * The node executor

    The second source file, an executor that builds a target and runs
    the built file in a child process, restarting it on new builds:
    [getExecArgv], [runProcess], [killProcess], [handleBuildEvent] and
    the loop of [nodeExecutor].  The module-level variable
    [subProcess] is a field of the [World], with a trace of what the
    code does to its surroundings; the builds and the awaited targets,
    which [runExecutor] produces, are inputs.  The signal handlers are
    left out. *)

Module NodeExecutor.

(** [options.inspect: boolean | InspectType] *)
Inductive Inspect : Type :=
| InspectFalse
| InspectTrue
| InspectAs (inspectType : string).

Record NodeExecutorOptions : Type := mkOptions {
  args : list string;
  runtimeArgs : list string;
  inspect : Inspect;
  host : string;
  port : N;
  watch : bool;
  waitUntilTargets : list string
}.

Record ExecutorEvent : Type := mkEvent {
  success : bool;
  outfile : string
}.

(** What [treeKill] rejects with, as far as the [catch] looks at it:
    an array, or an object with a [message]. *)
Inductive KillError : Type :=
| ErrArray (items : list string)
| ErrMessage (message : string).

Inductive Effect : Type :=
| Fork (modulePath : string) (args execArgv : list string)
| TreeKill (pid : nat)
| LoggerError (message : string)
| LoggerInfo (message : string)
| ConsoleLog (message : string).

(** A child process is known by the ordinal of the fork that made
    it. *)
Record World : Type := mkWorld {
  subProcess : option nat;
  spawned : nat;
  trace : list Effect
}.

Definition emit (e : Effect) (w : World) : World :=
  mkWorld (subProcess w) (spawned w) (trace w ++ [e]).

Definition truthy (s : string) : bool := negb (String.eqb s "").

Section Executor.

(** [InspectType.Inspect] of [./schema], the path that
    [require.resolve('source-map-support/register')] returns, the
    text of a number in a template literal, and the outcome of
    [treeKill] on a process: none of them is in the sources. *)
Variable InspectType_Inspect : string.
Variable sourceMapSupportRegister : string.
Variable numberToString : N -> string.
Variable treeKill : nat -> option KillError.

Definition getExecArgv (options : NodeExecutorOptions)
  : list string * NodeExecutorOptions :=
  let args := "-r" :: sourceMapSupportRegister :: runtimeArgs options in
  let options :=
    match inspect options with
    | InspectTrue =>
        mkOptions (NodeExecutor.args options) (runtimeArgs options)
                  (InspectAs InspectType_Inspect) (host options) (port options)
                  (watch options) (waitUntilTargets options)
    | _ => options
    end in
  match inspect options with
  | InspectAs t =>
      if truthy t
      then (args ++ [("--" ++ t ++ "=" ++ host options ++ ":"
                           ++ numberToString (port options))%string],
            options)
      else (args, options)
  | _ => (args, options)
  end.

Definition runProcess (event : ExecutorEvent) (options : NodeExecutorOptions)
           (w : World) : World * NodeExecutorOptions :=
  match subProcess w with
  | Some _ => (w, options)
  | None =>
      if negb (success event) then (w, options)
      else
        let (execArgv, options') := getExecArgv options in
        (mkWorld (Some (spawned w)) (S (spawned w))
                 (trace w ++ [Fork (outfile event) (args options) execArgv]),
         options')
  end.

Definition killProcess (w : World) : World :=
  match subProcess w with
  | None => w
  | Some pid =>
      let w := emit (TreeKill pid) w in
      let w :=
        match treeKill pid with
        | None => w
        | Some (ErrArray items) =>
            if truthy (nth 0 items "") && truthy (nth 2 items "")
            then emit (LoggerError (nth 2 items "")) w
            else w
        | Some (ErrMessage message) =>
            if truthy message then emit (LoggerError message) w else w
        end in
      mkWorld None (spawned w) (trace w)
  end.

Definition handleBuildEvent (event : ExecutorEvent)
           (options : NodeExecutorOptions) (w : World)
  : World * NodeExecutorOptions :=
  let w :=
    if (negb (success event) || watch options)
       && match subProcess w with Some _ => true | None => false end
    then killProcess w
    else w in
  runProcess event options w.

(** The body of the [for await] loop, and the loop over the build
    events that [startBuild] delivers; every event is yielded as it
    came. *)
Definition onBuildEvent (event : ExecutorEvent) (options : NodeExecutorOptions)
           (w : World) : World * NodeExecutorOptions :=
  let w :=
    if negb (success event)
    then emit (LoggerInfo (outfile event ++ " was not restarted.")%string)
              (emit (LoggerError "There was an error with the build. See above.")
                    w)
    else w in
  handleBuildEvent event options w.

Fixpoint buildLoop (events : list ExecutorEvent) (options : NodeExecutorOptions)
         (w : World) : World * NodeExecutorOptions :=
  match events with
  | [] => (w, options)
  | event :: rest =>
      let (w', options') := onBuildEvent event options w in
      buildLoop rest options' w'
  end.

(** The check of the awaited targets: [results] holds, for each target
    in turn, whether its first event reported success. *)
Fixpoint firstFailure (targets : list string) (i : nat) (results : list bool)
  : option string :=
  match results with
  | [] => None
  | true :: rest => firstFailure targets (S i) rest
  | false :: _ =>
      Some ("Wait until target failed: " ++ nth i targets "undefined" ++ ".")%string
  end.

Inductive Outcome : Type :=
| Yielded (events : list ExecutorEvent) (w : World)
          (options : NodeExecutorOptions)
| Thrown (message : string) (w : World).

Definition nodeExecutor (options : NodeExecutorOptions) (results : list bool)
           (events : list ExecutorEvent) (w : World) : Outcome :=
  match
    match waitUntilTargets options with
    | [] => None
    | _ :: _ => firstFailure (waitUntilTargets options) 0 results
    end
  with
  | Some message => Thrown message (emit (ConsoleLog "throw") w)
  | None =>
      let (w', options') := buildLoop events options w in
      Yielded events w' options'
  end.

End Executor.

(** Counting what a trace holds. *)
Definition isFork (e : Effect) : bool :=
  match e with Fork _ _ _ => true | _ => false end.

Definition isTreeKill (e : Effect) : bool :=
  match e with TreeKill _ => true | _ => false end.

Definition forks (w : World) : nat := length (filter isFork (trace w)).
Definition kills (w : World) : nat := length (filter isTreeKill (trace w)).

Definition tracked (w : World) : nat :=
  match subProcess w with Some _ => 1 | None => 0 end.

Definition running (w : World) : bool :=
  match subProcess w with Some _ => true | None => false end.




End NodeExecutor.

(** * The conversion to the new configuration file

    [createNewCypressConfig] of
    [packages/cypress/src/generators/convert-to-cypress-10/conversion.util.ts]:
    the step that turns the content of [cypress.json] into the object
    written to [cypress.config.ts].  The file tree and
    [joinPathFragments] belong to [@nrwl/devkit]; the function takes
    what [readJson] returned and asks the tree whether a path exists. *)

Module ConversionUtil.

(** Parsed JSON.  An object lists its members in property order; a
    number is modelled by an integer, of which only being zero is
    looked at. *)
Inductive Json : Type :=
| JNull
| JBool (b : bool)
| JNumber (n : Z)
| JString (s : string)
| JArray (items : list Json)
| JObject (members : list (string * Json)).

Definition JsonObject : Type := list (string * Json).

(** Truthiness, as the conditional on [baseUrl] tests it. *)
Definition truthy (j : Json) : bool :=
  match j with
  | JNull => false
  | JBool b => b
  | JNumber n => negb (Z.eqb n 0)
  | JString s => negb (String.eqb s "")
  | JArray _ | JObject _ => true
  end.

(** Reading a property ([None] is [undefined]) and assigning one (a
    known key keeps its place, a new key goes last). *)
Fixpoint obj_get (k : string) (o : JsonObject) : option Json :=
  match o with
  | [] => None
  | (k', v) :: r => if String.eqb k k' then Some v else obj_get k r
  end.

Fixpoint obj_set (k : string) (v : Json) (o : JsonObject) : JsonObject :=
  match o with
  | [] => [(k, v)]
  | (k', v') :: r =>
      if String.eqb k k' then (k', v) :: r else (k', v') :: obj_set k v r
  end.

(** A destructuring default, used when the property is undefined. *)
Definition withDefault (d : Json) (o : option Json) : Json :=
  match o with Some v => v | None => d end.

(** The rest of a destructuring: the members not named. *)
Definition restOf (names : list string) (o : JsonObject) : JsonObject :=
  filter (fun kv => negb (existsb (String.eqb (fst kv)) names)) o.

Definition destructured : list string :=
  ["baseUrl"; "modifyObstructiveCode"; "integrationFolder"; "supportFile"].

Definition specPattern : Json := JString "src/e2e/**/*.cy.{js,jsx,ts,tsx}".

Section CreateNewCypressConfig.

Variable tree_exists : string -> bool.
Variable joinPathFragments : list string -> string.

Definition newSupportFile (sourceRoot : string) (cypressConfigJson : JsonObject)
  : Json :=
  if tree_exists (joinPathFragments [sourceRoot; "support"; "index.ts"])
  then JString "src/support/e2e.ts"
  else withDefault (JString "src/support/e2e.ts")
                   (obj_get "supportFile" cypressConfigJson).

Definition newIntegrationFolder (sourceRoot : string)
           (cypressConfigJson : JsonObject) : Json :=
  if tree_exists (joinPathFragments [sourceRoot; "integration"])
  then JString "src/e2e"
  else withDefault (JString "src/e2e")
                   (obj_get "integrationFolder" cypressConfigJson).

Definition createNewCypressConfig (sourceRoot : string)
           (cypressConfigJson : JsonObject) : JsonObject * JsonObject :=
  let baseUrl := withDefault JNull (obj_get "baseUrl" cypressConfigJson) in
  let restOfConfig := restOf destructured cypressConfigJson in
  let cypressConfigTs :=
    if truthy baseUrl then [("baseUrl", baseUrl)] else [] in
  let e2e :=
    obj_set "integrationFolder"
            (newIntegrationFolder sourceRoot cypressConfigJson)
            (obj_set "supportFile" (newSupportFile sourceRoot cypressConfigJson)
                     (obj_set "specPattern" specPattern restOfConfig)) in
  (obj_set "e2e" (JObject e2e) cypressConfigTs, cypressConfigJson).

End CreateNewCypressConfig.

(** The [e2e] section of a new configuration. *)
Definition e2eOf (cypressConfigTs : JsonObject) : JsonObject :=
  match obj_get "e2e" cypressConfigTs with
  | Some (JObject members) => members
  | _ => []
  end.

End ConversionUtil.

(** ** Further notions: what a rewritten export looks like *)

(** An exported expression before and after the visitor: a call, and
    the same callee applied to one object literal. *)
Definition rewrittenExport (e e' : Expression) : Prop :=
  exists callee args ps,
    e = CallExpression callee args
    /\ e' = CallExpression callee [ObjectLiteralExpression ps].

(** Numbers, strings and booleans, the values a key is never merged
    into; and the initializers that [buildMetadataFromConfig] can
    descend into at a property named [name]. *)
Definition isPrimitive (v : Value) : bool :=
  match v with
  | VNumber _ | VString _ | VBoolean _ => true
  | _ => false
  end.

Definition isMap (v : Value) : bool :=
  match v with VMap _ => true | _ => false end.

Definition recordShaped (name : string) (e : Expression) : bool :=
  match e with
  | ObjectLiteralExpression _ => true
  | CallExpression _ _ => String.eqb name "devServer"
  | _ => false
  end.

(** ** Further notions: configurations the codec carries faithfully *)

(** The entries of the map at [devServer] that [createPropertyAssignment]
    writes as arguments in the places the decoder reads them back
    from: strings under the first names of [devServerPositionalArgument],
    in that order. *)
Fixpoint positional (names : list string) (es : list (string * Value)) : bool :=
  match es with
  | [] => true
  | (k, VString _) :: r =>
      match names with
      | n :: ns => String.eqb k n && positional ns r
      | [] => false
      end
  | _ => false
  end.

(** Numbers, strings, booleans and maps of such with distinct keys,
    the map at a key [devServer] being positional. *)
Fixpoint wellFormedValue (key : string) (v : Value) : bool :=
  match v with
  | VNumber _ | VString _ | VBoolean _ => true
  | VMap es =>
      if String.eqb key "devServer"
      then positional devServerPositionalArgument es
      else distinct (map fst es)
           && forallb (fun kv => wellFormedValue (fst kv) (snd kv)) es
  | _ => false
  end.

Definition wellFormedConfiguration (X : MetadataMap) : bool :=
  distinct (map fst X)
  && forallb (fun kv => wellFormedValue (fst kv) (snd kv)) X.

(** The new configurations of the input contract: nested plain objects
    with distinct keys whose leaves are numbers, strings and booleans;
    and the map such an object is loaded as. *)
Fixpoint plainValue (v : Value) : bool :=
  match v with
  | VNumber _ | VString _ | VBoolean _ => true
  | VObject es => distinct (map fst es) && forallb (fun kv => plainValue (snd kv)) es
  | _ => false
  end.

Definition plainConfiguration (C : list (string * Value)) : bool :=
  distinct (map fst C) && forallb (fun kv => plainValue (snd kv)) C.

Fixpoint asMap (v : Value) : Value :=
  match v with
  | VObject es => VMap (map (fun kv => (fst kv, asMap (snd kv))) es)
  | _ => v
  end.

Definition asMapEntries (C : list (string * Value)) : MetadataMap :=
  map (fun kv => (fst kv, asMap (snd kv))) C.

(** The statements the two round trips make of one value. *)
Definition encodes_and_decodes (v : Value) : Prop :=
  forall key,
    wellFormedValue key v = true ->
    exists e,
      createPropertyAssignment key v = Ok (key, e)
      /\ forall p, visitProperty [] p key e [] = Ok [(key, v)].

Definition loads_as_map (v : Value) : Prop :=
  forall key,
    plainValue v = true ->
    exists e,
      createPropertyAssignment key v = Ok (key, e)
      /\ forall p, visitProperty [] p key e [] = Ok [(key, asMap v)].

Section ValueInduction.

Variable P : Value -> Prop.
Hypothesis P_undefined : P VUndefined.
Hypothesis P_number : forall n, P (VNumber n).
Hypothesis P_string : forall s, P (VString s).
Hypothesis P_boolean : forall b, P (VBoolean b).
Hypothesis P_object :
  forall es, Forall (fun kv => P (snd kv)) es -> P (VObject es).
Hypothesis P_map :
  forall es, Forall (fun kv => P (snd kv)) es -> P (VMap es).

Fixpoint Value_nested_ind (v : Value) : P v :=
  match v with
  | VUndefined => P_undefined
  | VNumber n => P_number n
  | VString s => P_string s
  | VBoolean b => P_boolean b
  | VObject es =>
      P_object es
        ((fix all (l : list (string * Value)) : Forall (fun kv => P (snd kv)) l :=
            match l with
            | [] => Forall_nil _
            | x :: r => Forall_cons x (Value_nested_ind (snd x)) (all r)
            end) es)
  | VMap es =>
      P_map es
        ((fix all (l : list (string * Value)) : Forall (fun kv => P (snd kv)) l :=
            match l with
            | [] => Forall_nil _
            | x :: r => Forall_cons x (Value_nested_ind (snd x)) (all r)
            end) es)
  end.

End ValueInduction.

(** The statements of two facts about pruning, for one value. *)
Definition pruning_nothing_at (v : Value) : Prop :=
  forall path, pruneValue [] path v = v.

Definition pruning_twice_at (toRemove : list string) (v : Value) : Prop :=
  forall path,
    pruneValue toRemove path (pruneValue toRemove path v)
    = pruneValue toRemove path v.

(** A node is known by its skeleton and its export assignments. *)
Definition determined_node (n1 : Node) : Prop :=
  forall n2 r1 r2,
    skeletonOfNode n1 = skeletonOfNode n2 ->
    exportsOfNode n1 ++ r1 = exportsOfNode n2 ++ r2 ->
    n1 = n2 /\ r1 = r2.

(** The dotted paths of all entries of a map, at every depth. *)
Fixpoint pathsOfValue (path : string) (v : Value) : list string :=
  match v with
  | VMap es =>
      (fix pathsOfEntries (es : list (string * Value)) : list string :=
         match es with
         | [] => []
         | (k, w) :: r =>
             propertyPathOf path k
               :: pathsOfValue (propertyPathOf path k) w ++ pathsOfEntries r
         end) es
  | _ => []
  end.

Fixpoint pathsOf (prefix : string) (m : MetadataMap) : list string :=
  match m with
  | [] => []
  | (k, w) :: r =>
      propertyPathOf prefix k
        :: pathsOfValue (propertyPathOf prefix k) w ++ pathsOf prefix r
  end.

(** No path of the map is to be removed. *)
Definition clean (toRemove : list string) (prefix : string) (m : MetadataMap)
  : Prop :=
  forall q, In q (pathsOf prefix m) -> includes toRemove q = false.

Definition keeps_clean_at (toRemove : list string) (e : Expression) : Prop :=
  forall p n m m1,
    visitProperty toRemove p n e m = Ok m1 ->
    clean toRemove p m -> clean toRemove p m1.

Definition children_keep_clean (toRemove : list string) (path : string)
           (c : Children) : Prop :=
  match c with
  | Some recurse =>
      forall x x1,
        recurse x = Ok x1 -> clean toRemove path x -> clean toRemove path x1
  | None => True
  end.

(** * Properties *)

(** ** The result monad *)

Lemma bind_Ok {A B : Type} (a : A) (k : A -> Result B) : bind (Ok a) k = k a.
Proof. reflexivity. Qed.

Lemma bind_Throw {A B : Type} (e : Error) (k : A -> Result B) :
  bind (Throw e) k = Throw e.
Proof. reflexivity. Qed.

(** ** The visitor touches the export assignments and nothing else *)

Lemma nodeVisitor_OtherNode (change : Change) (t : string) (cs : list Node)
      (st : Static) :
  nodeVisitor change (OtherNode t cs) st =
  let* cst := visitStatements change cs st in
  Ok (OtherNode t (fst cst), snd cst).
Proof.
  simpl. f_equal. revert st.
  induction cs as [|c cs IH]; intro st; simpl; [reflexivity|].
  destruct (nodeVisitor change c st) as [[n' st']|e]; simpl; [|reflexivity].
  rewrite IH. reflexivity.
Qed.

Lemma updateExports_app (change : Change) (es1 es2 : list Expression)
      (st : Static) :
  updateExports change (es1 ++ es2) st =
  let* a := updateExports change es1 st in
  let* b := updateExports change es2 (snd a) in
  Ok (fst a ++ fst b, snd b).
Proof.
  revert st. induction es1 as [|e es1 IH]; intro st; simpl.
  - destruct (updateExports change es2 st) as [[es' st']|err]; reflexivity.
  - destruct (updateExport change e st) as [[e' st']|err]; simpl; [|reflexivity].
    rewrite IH.
    destruct (updateExports change es1 st') as [[es1' st1]|err]; simpl;
      [|reflexivity].
    destruct (updateExports change es2 st1) as [[es2' st2]|err]; reflexivity.
Qed.

Lemma visitStatements_outcome_of_nodes (change : Change) (ns : list Node) :
  Forall (fun n => forall st,
              visit_outcome exportsOfNode skeletonOfNode change n st
                            (nodeVisitor change n st)) ns ->
  forall st,
    visit_outcome exportAssignments skeleton change ns st
                  (visitStatements change ns st).
Proof.
  unfold visit_outcome, exportAssignments, skeleton.
  induction 1 as [|n ns Hn _ IH]; intro st; simpl.
  - exists []. auto.
  - rewrite updateExports_app. specialize (Hn st).
    destruct (updateExports change (exportsOfNode n) st) as [[es1 st1]|err];
      simpl.
    + destruct Hn as (n' & -> & <- & Hs). simpl. specialize (IH st1).
      destruct (updateExports change (flat_map exportsOfNode ns) st1)
        as [[es2 st2]|err]; simpl.
      * destruct IH as (ns' & -> & <- & Hs'). simpl.
        exists (n' :: ns'). simpl. rewrite Hs, Hs'. auto.
      * rewrite IH. reflexivity.
    + rewrite Hn. reflexivity.
Qed.

Lemma nodeVisitor_outcome (change : Change) (n : Node) (st : Static) :
  visit_outcome exportsOfNode skeletonOfNode change n st
                (nodeVisitor change n st).
Proof.
  revert st. induction n as [e | t cs IH] using Node_nested_ind; intro st.
  - unfold visit_outcome. simpl. unfold visitExportAssignment.
    destruct (updateExport change e st) as [[e' st']|err]; simpl; [|reflexivity].
    exists (ExportAssignment e'). auto.
  - pose proof (visitStatements_outcome_of_nodes change cs IH st) as H.
    unfold visit_outcome in *. rewrite nodeVisitor_OtherNode.
    change (exportsOfNode (OtherNode t cs)) with (exportAssignments cs).
    destruct (updateExports change (exportAssignments cs) st)
      as [[es' st']|err].
    + destruct H as (cs' & -> & <- & Hs). simpl.
      exists (OtherNode t cs'). simpl. unfold skeleton in Hs. rewrite Hs. auto.
    + rewrite H. reflexivity.
Qed.

Lemma visitStatements_outcome (change : Change) (file : SourceFile)
      (st : Static) :
  visit_outcome exportAssignments skeleton change file st
                (visitStatements change file st).
Proof.
  apply visitStatements_outcome_of_nodes.
  apply Forall_forall. intros n _ st'. apply nodeVisitor_outcome.
Qed.

Lemma visit_single_export (change : Change) (file : SourceFile)
      (st st' : Static) (e e' : Expression) :
  exportAssignments file = [e] ->
  updateExport change e st = Ok (e', st') ->
  exists file',
    visitStatements change file st = Ok (file', st') /\
    exportAssignments file' = [e'] /\
    skeleton file' = skeleton file.
Proof.
  intros Hfile He.
  pose proof (visitStatements_outcome change file st) as H.
  unfold visit_outcome in H. rewrite Hfile in H. simpl in H.
  rewrite He in H. simpl in H. exact H.
Qed.

Lemma visit_no_export (change : Change) (file : SourceFile) (st : Static) :
  exportAssignments file = [] ->
  exists file',
    visitStatements change file st = Ok (file', st) /\
    exportAssignments file' = [] /\
    skeleton file' = skeleton file.
Proof.
  intros Hfile.
  pose proof (visitStatements_outcome change file st) as H.
  unfold visit_outcome in H. rewrite Hfile in H. exact H.
Qed.

(** A node without export assignments is its own skeleton. *)
Lemma skeletonOfNode_no_export (n : Node) :
  exportsOfNode n = [] -> skeletonOfNode n = n.
Proof.
  induction n as [e | t cs IH] using Node_nested_ind; simpl.
  - discriminate.
  - intro H. f_equal. induction IH as [|c cs Hc _ IHcs]; simpl in *.
    + reflexivity.
    + apply app_eq_nil in H. destruct H as [H1 H2].
      rewrite (Hc H1), (IHcs H2). reflexivity.
Qed.

Lemma skeleton_no_export (file : SourceFile) :
  exportAssignments file = [] -> skeleton file = file.
Proof.
  unfold exportAssignments, skeleton.
  induction file as [|n file IH]; simpl; intro H; [reflexivity|].
  apply app_eq_nil in H. destruct H as [H1 H2].
  rewrite (skeletonOfNode_no_export n H1), (IH H2). reflexivity.
Qed.

(** ** The entry points, unfolded *)

Lemma addOrUpdateProperties_unfold (file : SourceFile)
      (newConfig : list (string * Value)) (overwrite : bool) (st : Static) :
  addOrUpdateProperties file newConfig overwrite st =
  let* m := loadNewConfig newConfig in
  visitStatements (Upsert newConfig overwrite) file (mkStatic m [] file).
Proof.
  unfold addOrUpdateProperties, changePropertiesTransformer, loadNewConfig.
  simpl. destruct (createConfigLiteral newConfig) as [ast|e]; simpl;
    [|reflexivity].
  destruct (buildMetadataFromConfig [] ast [] "") as [m|e]; reflexivity.
Qed.

Lemma removeProperties_unfold (file : SourceFile) (toRemove : list string)
      (st : Static) :
  removeProperties file toRemove st =
  visitStatements Delete file (mkStatic [] toRemove file).
Proof. reflexivity. Qed.

Lemma decodedConfiguration_single (file : SourceFile) (callee : Expression)
      (ps : list (string * Expression)) (rest : list Expression) :
  exportAssignments file
  = [CallExpression callee (ObjectLiteralExpression ps :: rest)] ->
  decodedConfiguration file = Some (decode (ObjectLiteralExpression ps)).
Proof.
  intro H. unfold decodedConfiguration, recognizedExport. rewrite H.
  reflexivity.
Qed.

(** ** The builder, one property at a time *)

Lemma visitProperty_unfold (toRemove : list string) (p n : string)
      (e : Expression) (m : MetadataMap) :
  visitProperty toRemove p n e m =
  if includes toRemove (propertyPathOf p n) then Ok m
  else
    let* c := childrenOf toRemove (propertyPathOf p n) n e in
    storeProperty c n e m.
Proof. destruct e; reflexivity. Qed.

Lemma visitProperties_cons (toRemove : list string) (p n : string)
      (e : Expression) (ps : list PropertyAssignment) (m : MetadataMap) :
  visitProperties toRemove p ((n, e) :: ps) m =
  let* m' := visitProperty toRemove p n e m in
  visitProperties toRemove p ps m'.
Proof. reflexivity. Qed.

Lemma map_get_fresh (n : string) (m : MetadataMap) :
  ~ In n (keys m) -> map_get n m = VUndefined.
Proof.
  induction m as [|[k v] m IH]; simpl; intro H; [reflexivity|].
  destruct (String.eqb_spec n k) as [->|Hne].
  - exfalso. apply H. left. reflexivity.
  - apply IH. intro Hin. apply H. right. exact Hin.
Qed.

Lemma map_set_fresh (n : string) (v : Value) (m : MetadataMap) :
  ~ In n (keys m) -> map_set n v m = m ++ [(n, v)].
Proof.
  induction m as [|[k w] m IH]; simpl; intro H; [reflexivity|].
  destruct (String.eqb_spec n k) as [->|Hne].
  - exfalso. apply H. left. reflexivity.
  - rewrite IH; [reflexivity|]. intro Hin. apply H. right. exact Hin.
Qed.

Lemma storeProperty_fresh (c : Children) (n : string) (e : Expression)
      (m : MetadataMap) :
  ~ In n (keys m) ->
  storeProperty c n e m = let* r := storeProperty c n e [] in Ok (m ++ r).
Proof.
  intro H. unfold storeProperty. rewrite (map_get_fresh n m H). simpl.
  destruct c as [recurse|].
  - destruct (recurse []) as [child|err]; simpl; [|reflexivity].
    rewrite (map_set_fresh n _ m H). reflexivity.
  - simpl. rewrite (map_set_fresh n _ m H). reflexivity.
Qed.

Lemma visitProperty_fresh (toRemove : list string) (p n : string)
      (e : Expression) (m : MetadataMap) :
  ~ In n (keys m) ->
  visitProperty toRemove p n e m =
  let* r := visitProperty toRemove p n e [] in Ok (m ++ r).
Proof.
  intro H. rewrite !visitProperty_unfold.
  destruct (includes toRemove (propertyPathOf p n)).
  - simpl. rewrite app_nil_r. reflexivity.
  - destruct (childrenOf toRemove (propertyPathOf p n) n e) as [c|err]; simpl;
      [|reflexivity].
    apply storeProperty_fresh. exact H.
Qed.

(** From the empty map, one property leaves at most its own key. *)
Lemma visitProperty_empty_keys (toRemove : list string) (p n : string)
      (e : Expression) (r : MetadataMap) :
  visitProperty toRemove p n e [] = Ok r ->
  r = [] \/ exists v, r = [(n, v)].
Proof.
  rewrite visitProperty_unfold.
  destruct (includes toRemove (propertyPathOf p n)).
  - intro H. inversion H. left. reflexivity.
  - destruct (childrenOf toRemove (propertyPathOf p n) n e) as [c|err]; simpl;
      [|discriminate].
    unfold storeProperty. simpl. destruct c as [recurse|].
    + destruct (recurse []) as [child|err]; simpl; [|discriminate].
      intro H. inversion H. right. eexists. reflexivity.
    + intro H. inversion H. right. eexists. reflexivity.
Qed.

Lemma distinct_cons (x : string) (l : list string) :
  distinct (x :: l) = true -> ~ In x l /\ distinct l = true.
Proof.
  simpl. intro H. apply andb_true_iff in H. destruct H as [H1 H2].
  split; [|exact H2]. intro Hin. apply negb_true_iff in H1.
  assert (Hex : existsb (String.eqb x) l = true).
  { apply existsb_exists. exists x. split; [exact Hin | apply String.eqb_refl]. }
  rewrite Hex in H1. discriminate.
Qed.

(** Properties with fresh, pairwise distinct names extend the map at
    its end, by what they would build from the empty map. *)
Lemma visitProperties_fresh (toRemove : list string) (p : string)
      (ps : list PropertyAssignment) :
  distinct (map fst ps) = true ->
  forall m,
    (forall n, In n (map fst ps) -> ~ In n (keys m)) ->
    visitProperties toRemove p ps m =
    let* r := visitProperties toRemove p ps [] in Ok (m ++ r).
Proof.
  induction ps as [|[n e] ps IH]; intros Hd m Hm.
  - simpl. rewrite app_nil_r. reflexivity.
  - simpl map in Hd. apply distinct_cons in Hd. destruct Hd as [Hn Hd].
    rewrite !visitProperties_cons.
    rewrite (visitProperty_fresh toRemove p n e m)
      by (apply Hm; left; reflexivity).
    destruct (visitProperty toRemove p n e []) as [r1|err] eqn:H1; simpl;
      [|reflexivity].
    assert (Hr1 : forall k, In k (map fst ps) -> ~ In k (keys r1)).
    { intros k Hk Hin.
      destruct (visitProperty_empty_keys _ _ _ _ _ H1) as [->|(v & ->)];
        simpl in Hin; [exact Hin|].
      destruct Hin as [<-|[]]. exact (Hn Hk). }
    rewrite (IH Hd (m ++ r1)).
    + rewrite (IH Hd r1 Hr1).
      destruct (visitProperties toRemove p ps []) as [r2|err]; simpl;
        [|reflexivity].
      rewrite app_assoc. reflexivity.
    + intros k Hk Hin. unfold keys in Hin. rewrite map_app in Hin.
      apply in_app_or in Hin. destruct Hin as [Hin|Hin].
      * apply (Hm k); [right; exact Hk | exact Hin].
      * exact (Hr1 k Hk Hin).
Qed.

(** ** Removal prunes the decoded configuration *)

Lemma pruneValue_VMap (toRemove : list string) (path : string)
      (es : list (string * Value)) :
  pruneValue toRemove path (VMap es) = VMap (prune toRemove path es).
Proof.
  simpl. f_equal. induction es as [|[k w] es IH]; simpl; [reflexivity|].
  rewrite IH. reflexivity.
Qed.

Lemma pruneValue_primitive (toRemove : list string) (path : string)
      (e : Expression) :
  pruneValue toRemove path (fromLiteralToPrimitive e) = fromLiteralToPrimitive e.
Proof. destruct e; reflexivity. Qed.

Lemma map_get_prune (toRemove : list string) (p n : string) (m : MetadataMap) :
  includes toRemove (propertyPathOf p n) = false ->
  map_get n (prune toRemove p m)
  = pruneValue toRemove (propertyPathOf p n) (map_get n m).
Proof.
  intro Hkeep. induction m as [|[k w] m IH]; [reflexivity|].
  cbn [prune map_get].
  destruct (String.eqb_spec n k) as [->|Hne].
  - rewrite Hkeep. cbn [map_get]. rewrite String.eqb_refl. reflexivity.
  - destruct (includes toRemove (propertyPathOf p k)); [exact IH|].
    cbn [map_get]. destruct (String.eqb_spec n k); [contradiction | exact IH].
Qed.

Lemma prune_map_set_kept (toRemove : list string) (p n : string) (v : Value)
      (m : MetadataMap) :
  includes toRemove (propertyPathOf p n) = false ->
  prune toRemove p (map_set n v m)
  = map_set n (pruneValue toRemove (propertyPathOf p n) v) (prune toRemove p m).
Proof.
  intro Hkeep. induction m as [|[k w] m IH].
  - cbn [map_set prune]. rewrite Hkeep. reflexivity.
  - cbn [map_set prune]. destruct (String.eqb_spec n k) as [->|Hne].
    + cbn [prune]. rewrite Hkeep. cbn [map_set]. rewrite String.eqb_refl.
      reflexivity.
    + cbn [prune]. destruct (includes toRemove (propertyPathOf p k));
        [exact IH|].
      cbn [map_set]. destruct (String.eqb_spec n k); [contradiction|].
      rewrite IH. reflexivity.
Qed.

Lemma prune_map_set_removed (toRemove : list string) (p n : string) (v : Value)
      (m : MetadataMap) :
  includes toRemove (propertyPathOf p n) = true ->
  prune toRemove p (map_set n v m) = prune toRemove p m.
Proof.
  intro Hgone. induction m as [|[k w] m IH].
  - cbn [map_set prune]. rewrite Hgone. reflexivity.
  - cbn [map_set]. destruct (String.eqb_spec n k) as [->|Hne].
    + cbn [prune]. rewrite Hgone. reflexivity.
    + cbn [prune]. rewrite IH. reflexivity.
Qed.

(** One property changes the map at its own key or not at all. *)
Lemma visitProperty_changes_own_key (toRemove : list string) (p n : string)
      (e : Expression) (m m1 : MetadataMap) :
  visitProperty toRemove p n e m = Ok m1 ->
  m1 = m \/ exists v, m1 = map_set n v m.
Proof.
  rewrite visitProperty_unfold.
  destruct (includes toRemove (propertyPathOf p n)).
  - intro H. inversion H. left. reflexivity.
  - destruct (childrenOf toRemove (propertyPathOf p n) n e) as [c|err]; simpl;
      [|discriminate].
    unfold storeProperty.
    destruct (map_get n m) as [|k|s|b|es|es]; destruct c as [recurse|];
      try (intro H; inversion H; left; reflexivity);
      try discriminate;
      try (destruct (recurse _) as [child|err]; simpl; [|discriminate]);
      intro H; inversion H; right; eexists; reflexivity.
Qed.

Lemma removal_prunes_properties (toRemove : list string)
      (ps : list PropertyAssignment) :
  Forall (fun p => removal_prunes_at toRemove (snd p)) ps ->
  forall q m m1,
    visitProperties [] q ps m = Ok m1 ->
    visitProperties toRemove q ps (prune toRemove q m)
    = Ok (prune toRemove q m1).
Proof.
  induction 1 as [|[n e] ps He _ IH]; intros q m m1 Hvisit.
  - inversion Hvisit. reflexivity.
  - cbn [snd] in He. rewrite visitProperties_cons in Hvisit.
    rewrite visitProperties_cons.
    destruct (visitProperty [] q n e m) as [m'|err] eqn:H1; simpl in Hvisit;
      [|discriminate].
    rewrite (He q n m m' H1). simpl. exact (IH q m' m1 Hvisit).
Qed.

Lemma removal_prunes_arguments (toRemove : list string)
      (args : list Expression) :
  Forall (removal_prunes_at toRemove) args ->
  forall q index m m1,
    forEachIndexed
      (fun index arg m =>
         match nth_error devServerPositionalArgument index with
         | Some name => visitProperty [] q name arg m
         | None => Throw TypeError
         end) index args m = Ok m1 ->
    forEachIndexed
      (fun index arg m =>
         match nth_error devServerPositionalArgument index with
         | Some name => visitProperty toRemove q name arg m
         | None => Throw TypeError
         end) index args (prune toRemove q m) = Ok (prune toRemove q m1).
Proof.
  induction 1 as [|a args Ha _ IH]; intros q index m m1 Hvisit.
  - inversion Hvisit. reflexivity.
  - cbn [forEachIndexed] in *.
    destruct (nth_error devServerPositionalArgument index) as [name|];
      [|discriminate].
    destruct (visitProperty [] q name a m) as [m'|err] eqn:H1; simpl in Hvisit;
      [|discriminate].
    rewrite (Ha q name m m' H1). simpl. exact (IH q _ m' m1 Hvisit).
Qed.

Lemma storeProperty_prune (toRemove : list string) (p n : string)
      (e : Expression) (c cR : Children) (m m1 : MetadataMap) :
  includes toRemove (propertyPathOf p n) = false ->
  children_pruned toRemove (propertyPathOf p n) c cR ->
  storeProperty c n e m = Ok m1 ->
  storeProperty cR n e (prune toRemove p m) = Ok (prune toRemove p m1).
Proof.
  intros Hkeep Hc. unfold storeProperty.
  rewrite (map_get_prune toRemove p n m Hkeep).
  destruct (map_get n m) as [|k|s|b|es|es].
  - destruct c as [recurse|], cR as [recurseR|]; simpl in Hc; try contradiction.
    + destruct (recurse []) as [child|err] eqn:Hr; simpl; [|discriminate].
      intro H. inversion H; subst m1.
      rewrite (Hc [] child Hr : recurseR [] = _). simpl.
      rewrite (prune_map_set_kept toRemove p n _ m Hkeep), pruneValue_VMap.
      reflexivity.
    + intro H. inversion H; subst m1. cbn [pruneValue].
      rewrite (prune_map_set_kept toRemove p n _ m Hkeep), pruneValue_primitive.
      reflexivity.
  - intro H. inversion H. reflexivity.
  - intro H. inversion H. reflexivity.
  - intro H. inversion H. reflexivity.
  - intro H. inversion H. reflexivity.
  - rewrite pruneValue_VMap.
    destruct c as [recurse|], cR as [recurseR|]; simpl in Hc; try contradiction;
      [|discriminate].
    destruct (recurse es) as [merged|err] eqn:Hr; simpl; [|discriminate].
    intro H. inversion H; subst m1.
    rewrite (Hc es merged Hr). simpl.
    rewrite (prune_map_set_kept toRemove p n _ m Hkeep), pruneValue_VMap.
    reflexivity.
Qed.

Lemma visitProperty_prune_by_children (toRemove : list string) (e : Expression) :
  (forall path n c,
      childrenOf [] path n e = Ok c ->
      exists cR,
        childrenOf toRemove path n e = Ok cR
        /\ children_pruned toRemove path c cR) ->
  removal_prunes_at toRemove e.
Proof.
  intros Hchildren p n m m1 Hvisit.
  pose proof (visitProperty_changes_own_key [] p n e m m1 Hvisit) as Hown.
  rewrite visitProperty_unfold in Hvisit. rewrite visitProperty_unfold.
  cbn [includes existsb] in Hvisit.
  destruct (includes toRemove (propertyPathOf p n)) eqn:Hinc.
  - destruct Hown as [->|(v & ->)]; [reflexivity|].
    rewrite (prune_map_set_removed toRemove p n v m Hinc). reflexivity.
  - destruct (childrenOf [] (propertyPathOf p n) n e) as [c|err] eqn:Hc;
      simpl in Hvisit; [|discriminate].
    destruct (Hchildren _ _ _ Hc) as (cR & -> & Hrel). simpl.
    exact (storeProperty_prune toRemove p n e c cR m m1 Hinc Hrel Hvisit).
Qed.

(** Reading a literal with paths to remove gives the pruning of what
    reading it with none gives. *)
Lemma removal_prunes_expression (toRemove : list string) (e : Expression) :
  removal_prunes_at toRemove e.
Proof.
  induction e as [k| | |s|s| |es _|ps IH|f args _ IHargs]
    using Expression_nested_ind;
    apply visitProperty_prune_by_children; intros path n c Hc;
    unfold childrenOf in Hc |- *;
    try (inversion Hc; subst c; exists None; split; [reflexivity | exact I]).
  - inversion Hc; subst c. eexists. split; [reflexivity|].
    intros x x1. apply (removal_prunes_properties toRemove ps IH).
  - destruct (String.eqb n "devServer").
    + destruct (Nat.ltb (length devServerPositionalArgument) (length args));
        [discriminate|].
      inversion Hc; subst c. eexists. split; [reflexivity|].
      intros x x1. apply (removal_prunes_arguments toRemove args IHargs).
    + inversion Hc; subst c. exists None. split; [reflexivity | exact I].
Qed.

Lemma removal_prunes_decoded (toRemove : list string) (config : Expression)
      (X : MetadataMap) :
  decode config = Ok X ->
  buildMetadataFromConfig toRemove config [] "" = Ok (prune toRemove "" X).
Proof.
  unfold decode, buildMetadataFromConfig.
  destruct config as [| | | | | | |ps|]; try discriminate.
  intro H.
  apply (removal_prunes_properties toRemove ps) with (q := "") (m := []);
    [|exact H].
  apply Forall_forall. intros x _. apply removal_prunes_expression.
Qed.

(** ** Duplicate-free literals are determined by what they decode to *)





Lemma recognizedExport_inv (file : SourceFile) (config : Expression) :
  recognizedExport file = Some config ->
  exists callee rest, exportAssignments file = [CallExpression callee (config :: rest)].
Proof.
  unfold recognizedExport.
  destruct (exportAssignments file) as [|e [|e' es]]; try discriminate.
  - destruct e as [| | | | | | | |callee [|root rest]]; try discriminate.
    destruct root; try discriminate.
    intro H. inversion H. eauto.
  - destruct e as [| | | | | | | |callee [|root rest]]; try discriminate.
    destruct root; discriminate.
Qed.


(** ** Upsert *)





(** C1, as amended.  With [overwrite = true] the visitor does not read
    the existing argument at all: every document whose recognized
    export decodes to [{a: 1, b: {x: 1, y: 2}}] is rewritten by the
    upsert of [{b: {x: 9}}] into a document whose decoded configuration
    is [{b: {x: 9}}].  The key [b] is replaced by the new subtree, and
    the key [a], absent from the new configuration, is dropped with the
    rest of the old argument. *)
Theorem overwrite_replaces_whole_configuration
        (file : SourceFile) (st : Static) :
  decodedConfiguration file = Some (Ok decoded_a_bxy) ->
  exists file',
    returned (addOrUpdateProperties file newConfig_bx9 true st) = Ok file'
    /\ decodedConfiguration file' = Some (Ok [("b", VMap [("x", VNumber 9)])])
    /\ skeleton file' = skeleton file.
Proof.
  unfold decodedConfiguration at 1.
  destruct (recognizedExport file) as [config|] eqn:Hrec; [|discriminate].
  intros _.
  destruct (recognizedExport_inv file config Hrec) as (callee & rest & Hfile).
  rewrite addOrUpdateProperties_unfold.
  change (loadNewConfig newConfig_bx9)
    with (Ok [("b", VMap [("x", VNumber 9)])] : Result MetadataMap).
  rewrite bind_Ok.
  destruct (visit_single_export (Upsert newConfig_bx9 true) file
              (mkStatic [("b", VMap [("x", VNumber 9)])] [] file) _ _ _
              Hfile eq_refl)
    as (file' & Hvisit & Hexports & Hskel).
  exists file'. rewrite Hvisit. simpl. repeat split.
  - rewrite (decodedConfiguration_single file' callee _ [] Hexports).
    reflexivity.
  - exact Hskel.
Qed.

Lemma overwrite_replaces_whole_configuration_witness :
  decodedConfiguration (defineConfig config_a_bxy) = Some (Ok decoded_a_bxy)
  /\ exists file',
      returned (addOrUpdateProperties (defineConfig config_a_bxy)
                                      newConfig_bx9 true st0) = Ok file'
      /\ decodedConfiguration file' = Some (Ok [("b", VMap [("x", VNumber 9)])]).
Proof.
  split; [reflexivity|].
  destruct (overwrite_replaces_whole_configuration
              (defineConfig config_a_bxy) st0 eq_refl)
    as (file' & Hret & Hdec & _).
  exists file'. split; assumption.
Defined.

(** C1 as the specification states it fails on the sample document: the
    configuration decoded from the result has no entry for [a]. *)
Lemma overwrite_keeps_existing_key_counterexample :
  decodedConfiguration (defineConfig config_a_bxy) = Some (Ok decoded_a_bxy)
  /\ exists file' m,
      returned (addOrUpdateProperties (defineConfig config_a_bxy)
                                      newConfig_bx9 true st0) = Ok file'
      /\ decodedConfiguration file' = Some (Ok m)
      /\ map_get "a" m = VUndefined
      /\ ~ Permutation m [("a", VNumber 1); ("b", VMap [("x", VNumber 9)])].
Proof.
  split; [reflexivity|].
  eexists. eexists. split; [reflexivity|]. split; [reflexivity|].
  split; [reflexivity|].
  intro H. apply Permutation_length in H. discriminate H.
Qed.

(** ** Removal *)

Lemma removal_literal
      (file : SourceFile) (callee : Expression) (rest : list Expression)
      (config : Expression) (toRemove : list string) (m : MetadataMap)
      (config' : Expression) (st : Static) :
  exportAssignments file = [CallExpression callee (config :: rest)] ->
  buildMetadataFromConfig toRemove config [] "" = Ok m ->
  createConfigLiteral m = Ok config' ->
  exists file',
    returned (removeProperties file toRemove st) = Ok file'
    /\ exportAssignments file' = [CallExpression callee [config']]
    /\ skeleton file' = skeleton file.
Proof.
  intros Hfile Hbuild Hemit. rewrite removeProperties_unfold.
  destruct (visit_single_export Delete file (mkStatic [] toRemove file)
              (mkStatic m toRemove file)
              (CallExpression callee (config :: rest))
              (CallExpression callee [config']) Hfile)
    as (file' & Hvisit & Hexports & Hskel).
  { simpl. rewrite Hbuild. simpl. rewrite Hemit. reflexivity. }
  exists file'. rewrite Hvisit. simpl. repeat split; assumption.
Qed.

(** Removal on a document is pruning on its decoded configuration:
    the exported call is rewritten to the literal of the pruned
    configuration, and nothing else changes. *)
Lemma removeProperties_prunes
      (file : SourceFile) (X : MetadataMap) (toRemove : list string)
      (config' : Expression) (st : Static) :
  decodedConfiguration file = Some (Ok X) ->
  createConfigLiteral (prune toRemove "" X) = Ok config' ->
  exists file' callee,
    returned (removeProperties file toRemove st) = Ok file'
    /\ exportAssignments file' = [CallExpression callee [config']]
    /\ skeleton file' = skeleton file.
Proof.
  unfold decodedConfiguration.
  destruct (recognizedExport file) as [config|] eqn:Hrec; [|discriminate].
  cbn [option_map]. intros Hdec Hemit. inversion Hdec as [Hdec'].
  destruct (recognizedExport_inv file config Hrec) as (callee & rest & Hfile).
  destruct (removal_literal file callee rest config toRemove _ config' st Hfile
              (removal_prunes_decoded toRemove config X Hdec') Hemit)
    as (file' & Hret & Hexports & Hskel).
  exists file', callee. repeat split; assumption.
Qed.

(** C5.  For every document whose recognized export decodes to
    [{a: 1, b: {x: 1, y: 2}}], [removeProperties] with the path [b.x]
    returns a document whose decoded configuration is
    [{a: 1, b: {y: 2}}]: the addressed leaf goes, its sibling [y] and
    the entry [a] stay as they were, and the file outside the export
    is untouched. *)
Theorem removal_drops_named_leaf (file : SourceFile) (st : Static) :
  decodedConfiguration file = Some (Ok decoded_a_bxy) ->
  exists file',
    returned (removeProperties file ["b.x"] st) = Ok file'
    /\ decodedConfiguration file'
       = Some (Ok [("a", VNumber 1); ("b", VMap [("y", VNumber 2)])])
    /\ skeleton file' = skeleton file.
Proof.
  intro Hdec.
  destruct (removeProperties_prunes file decoded_a_bxy ["b.x"] _ st Hdec eq_refl)
    as (file' & callee & Hret & Hexports & Hskel).
  exists file'. repeat split.
  - exact Hret.
  - rewrite (decodedConfiguration_single file' callee _ [] Hexports).
    reflexivity.
  - exact Hskel.
Qed.

Lemma removal_drops_named_leaf_witness :
  decodedConfiguration (defineConfig config_a_bxy) = Some (Ok decoded_a_bxy)
  /\ exists file',
      returned (removeProperties (defineConfig config_a_bxy) ["b.x"] st0)
      = Ok file'
      /\ decodedConfiguration file'
         = Some (Ok [("a", VNumber 1); ("b", VMap [("y", VNumber 2)])]).
Proof.
  split; [reflexivity|].
  destruct (removal_drops_named_leaf (defineConfig config_a_bxy) st0 eq_refl)
    as (file' & Hret & Hdec & _).
  exists file'. split; assumption.
Defined.

(** C6.  For every document whose recognized export decodes to
    [{b: {x: 1}}], [removeProperties] with the path [b.x] returns a
    document whose decoded configuration is [{b: {}}]: the key [b]
    stays, bound to an empty record and written as an empty object
    literal, and the result is not the empty configuration. *)
Theorem removal_leaves_empty_object (file : SourceFile) (st : Static) :
  decodedConfiguration file = Some (Ok decoded_bx) ->
  exists file',
    returned (removeProperties file ["b.x"] st) = Ok file'
    /\ (exists callee,
          exportAssignments file'
          = [CallExpression callee
               [ObjectLiteralExpression [("b", ObjectLiteralExpression [])]]])
    /\ decodedConfiguration file' = Some (Ok [("b", VMap [])])
    /\ decodedConfiguration file' <> Some (Ok [])
    /\ skeleton file' = skeleton file.
Proof.
  intro Hdec.
  destruct (removeProperties_prunes file decoded_bx ["b.x"] _ st Hdec eq_refl)
    as (file' & callee & Hret & Hexports & Hskel).
  assert (Hdec' : decodedConfiguration file' = Some (Ok [("b", VMap [])])).
  { rewrite (decodedConfiguration_single file' callee _ [] Hexports).
    reflexivity. }
  exists file'. repeat split.
  - exact Hret.
  - exists callee. exact Hexports.
  - exact Hdec'.
  - rewrite Hdec'. discriminate.
  - exact Hskel.
Qed.

Lemma removal_leaves_empty_object_witness :
  decodedConfiguration (defineConfig config_bx) = Some (Ok decoded_bx)
  /\ exists file',
      returned (removeProperties (defineConfig config_bx) ["b.x"] st0) = Ok file'
      /\ decodedConfiguration file' = Some (Ok [("b", VMap [])]).
Proof.
  split; [reflexivity|].
  destruct (removal_leaves_empty_object (defineConfig config_bx) st0 eq_refl)
    as (file' & Hret & _ & Hdec & _).
  exists file'. split; assumption.
Defined.

(** ** Documents without a recognized export *)

(** C2, as amended.  The transformer has no error of its own for a
    missing export.  (1) A document with no export assignment at all is
    returned as it is by [removeProperties], and by
    [addOrUpdateProperties] whenever the new configuration itself
    loads.  (2) A document whose only export assignment is an
    expression without arguments (an object literal, an identifier, a
    literal), or is a call whose first argument is no object literal or
    is missing, makes [removeProperties] stop with the [TypeError] of an
    unchecked cast.  (3) With [overwrite = true] the arguments of the
    exported call are not read: [addOrUpdateProperties] replaces them,
    whatever they are, by the one object literal that encodes the new
    configuration, and leaves the rest of the document alone. *)
Theorem missing_export_is_not_detected
        (file : SourceFile) (toRemove : list string)
        (newConfig : list (string * Value)) (overwrite : bool) (st : Static) :
  (exportAssignments file = [] ->
   returned (removeProperties file toRemove st) = Ok file
   /\ forall m,
       loadNewConfig newConfig = Ok m ->
       returned (addOrUpdateProperties file newConfig overwrite st) = Ok file)
  /\ (forall e,
        exportAssignments file = [e] ->
        match e with
        | CallExpression _ (ObjectLiteralExpression _ :: _) => False
        | _ => True
        end ->
        returned (removeProperties file toRemove st) = Throw TypeError)
  /\ (forall callee args m config,
        exportAssignments file = [CallExpression callee args] ->
        loadNewConfig newConfig = Ok m ->
        createConfigLiteral m = Ok config ->
        exists file',
          returned (addOrUpdateProperties file newConfig true st) = Ok file'
          /\ exportAssignments file' = [CallExpression callee [config]]
          /\ skeleton file' = skeleton file).
Proof.
  split; [|split].
  - intro Hfile. split.
    + rewrite removeProperties_unfold.
      destruct (visit_no_export Delete file (mkStatic [] toRemove file) Hfile)
        as (file' & -> & Hexports & Hskel). simpl.
      rewrite (skeleton_no_export file Hfile) in Hskel.
      rewrite (skeleton_no_export file' Hexports) in Hskel.
      rewrite Hskel. reflexivity.
    + intros m Hload. rewrite addOrUpdateProperties_unfold, Hload, bind_Ok.
      destruct (visit_no_export (Upsert newConfig overwrite) file
                                (mkStatic m [] file) Hfile)
        as (file' & -> & Hexports & Hskel). simpl.
      rewrite (skeleton_no_export file Hfile) in Hskel.
      rewrite (skeleton_no_export file' Hexports) in Hskel.
      rewrite Hskel. reflexivity.
  - intros e Hfile He. rewrite removeProperties_unfold.
    pose proof (visitStatements_outcome Delete file
                                        (mkStatic [] toRemove file)) as H.
    unfold visit_outcome in H. rewrite Hfile in H. simpl in H.
    assert (Hupd : updateExport Delete e (mkStatic [] toRemove file)
                   = Throw TypeError).
    { destruct e as [| | | | | | |ps|callee args]; try reflexivity.
      destruct args as [|root args]; [reflexivity|].
      destruct root; try reflexivity. contradiction. }
    rewrite Hupd in H. simpl in H. rewrite H. reflexivity.
  - intros callee args m config Hfile Hload Hconfig.
    rewrite addOrUpdateProperties_unfold, Hload, bind_Ok.
    destruct (visit_single_export (Upsert newConfig true) file
                (mkStatic m [] file) (mkStatic m [] file)
                (CallExpression callee args) (CallExpression callee [config])
                Hfile) as (file' & Hvisit & Hexports & Hskel).
    { simpl. rewrite Hconfig. reflexivity. }
    exists file'. rewrite Hvisit.
    split; [reflexivity|]. split; [exact Hexports | exact Hskel].
Qed.

Lemma missing_export_is_not_detected_witness :
  (returned (removeProperties onlyImports ["baseUrl"] st0) = Ok onlyImports
   /\ returned (addOrUpdateProperties onlyImports newConfig_bx9 false st0)
      = Ok onlyImports)
  /\ returned (removeProperties
                 [ExportAssignment (ObjectLiteralExpression [("a", num 1)])]
                 ["a"] st0)
     = Throw TypeError
  /\ exists file',
      returned (addOrUpdateProperties (defineConfig (Identifier "shared"))
                                      newConfig_bx9 true st0) = Ok file'
      /\ exportAssignments file'
         = [CallExpression (Identifier "defineConfig")
              [ObjectLiteralExpression
                 [("b", ObjectLiteralExpression [("x", num 9)])]]].
Proof.
  split; [|split].
  - destruct (missing_export_is_not_detected
                onlyImports ["baseUrl"] newConfig_bx9 false st0) as (H & _ & _).
    destruct (H eq_refl) as (Hremove & Hupsert).
    split; [exact Hremove|].
    exact (Hupsert [("b", VMap [("x", VNumber 9)])] eq_refl).
  - destruct (missing_export_is_not_detected
                [ExportAssignment (ObjectLiteralExpression [("a", num 1)])]
                ["a"] newConfig_bx9 false st0) as (_ & H & _).
    exact (H (ObjectLiteralExpression [("a", num 1)]) eq_refl I).
  - destruct (missing_export_is_not_detected
                (defineConfig (Identifier "shared")) [] newConfig_bx9 true st0)
      as (_ & _ & H).
    destruct (H (Identifier "defineConfig") [Identifier "shared"]
                [("b", VMap [("x", VNumber 9)])]
                (ObjectLiteralExpression
                   [("b", ObjectLiteralExpression [("x", num 9)])])
                eq_refl eq_refl eq_refl) as (file' & Hret & Hexports & _).
    exists file'. split; assumption.
Defined.

(** C2 as the specification states it fails on a document that has no
    export: both entry points return, and return the document as it
    was. *)
Lemma missing_export_is_fatal_counterexample :
  recognizedExport onlyImports = None
  /\ returned (removeProperties onlyImports ["baseUrl"] st0) = Ok onlyImports
  /\ returned (addOrUpdateProperties onlyImports newConfig_bx9 false st0)
     = Ok onlyImports
  /\ returned (addOrUpdateProperties onlyImports newConfig_bx9 true st0)
     = Ok onlyImports.
Proof. repeat split. Qed.

(** ** The value codec *)

(** C4.  Wherever the reserved key [devServer] is met for the first
    time (no entry for it in the map yet, nothing to remove), a call
    with two string arguments decodes to the record that binds
    [tsConfig] to the first and [compiler] to the second, whatever the
    callee is; and encoding that record at the key [devServer] gives a
    call with the same two string arguments in the same order.  This
    holds for the arguments ["tsconfig.json"] and ["babel"] of the
    specification among all others. *)
Theorem devServer_round_trip
        (callee : Expression) (parentPrefix : string) (m : MetadataMap)
        (tsConfig compiler : string) :
  map_get "devServer" m = VUndefined ->
  visitProperty [] parentPrefix "devServer"
                (CallExpression callee
                   [StringLiteral tsConfig; StringLiteral compiler]) m
  = Ok (map_set "devServer" (devServerRecord tsConfig compiler) m)
  /\ createPropertyAssignment "devServer" (devServerRecord tsConfig compiler)
     = Ok ("devServer",
           componentDevServer [StringLiteral tsConfig; StringLiteral compiler]).
Proof.
  intro Hm. split; [|reflexivity].
  simpl. rewrite Hm. reflexivity.
Qed.

Lemma devServer_round_trip_witness :
  decode (ObjectLiteralExpression
            [("devServer",
              componentDevServer [StringLiteral "tsconfig.json";
                                  StringLiteral "babel"])])
  = Ok [("devServer", devServerRecord "tsconfig.json" "babel")]
  /\ createPropertyAssignment "devServer"
                              (devServerRecord "tsconfig.json" "babel")
     = Ok ("devServer",
           componentDevServer [StringLiteral "tsconfig.json";
                               StringLiteral "babel"]).
Proof.
  destruct (devServer_round_trip (Identifier "componentDevServer") "" []
              "tsconfig.json" "babel" eq_refl) as (Hdecode & Hencode).
  split; [|exact Hencode].
  unfold decode, buildMetadataFromConfig, visitProperties, forEach.
  cbn [fst snd]. unfold componentDevServer. rewrite Hdecode. reflexivity.
Defined.

(** The same through an entry point: removing nothing from the document
    of the test suite gives back the call with its two arguments. *)
Lemma devServer_round_trip_document :
  decodedConfiguration (defineConfig config_component_devServer)
  = Some (Ok [("component",
               VMap [("devServer", devServerRecord "tsconfig.json" "babel")])])
  /\ returned (removeProperties (defineConfig config_component_devServer)
                                [] st0)
     = Ok (defineConfig config_component_devServer).
Proof. split; reflexivity. Qed.

(** C7, as amended.  No error is raised for an unsupported value node.
    Where its key is new (and not to be removed), the node is decoded
    to whatever its [text] field holds: the string for a node that has
    a text, such as an identifier, and [undefined] otherwise.  Where
    its key already holds a number, a string or a boolean, the node is
    skipped without being looked at. *)
Theorem unsupported_value_is_not_rejected
        (toRemove : list string) (parentPrefix name : string)
        (e : Expression) (m : MetadataMap) :
  unsupportedValue name e = true ->
  includes toRemove (propertyPathOf parentPrefix name) = false ->
  (map_get name m = VUndefined ->
   visitProperty toRemove parentPrefix name e m
   = Ok (map_set name (text_field e) m))
  /\ ((exists n, map_get name m = VNumber n)
      \/ (exists s, map_get name m = VString s)
      \/ (exists b, map_get name m = VBoolean b) ->
      visitProperty toRemove parentPrefix name e m = Ok m).
Proof.
  intros He Hkeep. split.
  - intro Hm.
    destruct e; simpl in He; try discriminate;
      simpl; rewrite Hkeep; try (rewrite Hm; reflexivity).
    apply negb_true_iff in He. rewrite He. simpl. rewrite Hm. reflexivity.
  - intros [(n & Hm) | [(s & Hm) | (b & Hm)]];
      (destruct e; simpl in He; try discriminate;
       simpl; rewrite Hkeep; try (rewrite Hm; reflexivity);
       apply negb_true_iff in He; rewrite He; simpl; rewrite Hm; reflexivity).
Qed.

Lemma unsupported_value_is_not_rejected_witness :
  visitProperty [] "" "baseUrl" (Identifier "url") []
  = Ok [("baseUrl", VString "url")]
  /\ visitProperty [] "" "baseUrl" (Identifier "url") [("baseUrl", VNumber 1)]
     = Ok [("baseUrl", VNumber 1)].
Proof.
  split.
  - exact (proj1 (unsupported_value_is_not_rejected
                    [] "" "baseUrl" (Identifier "url") [] eq_refl eq_refl)
                 eq_refl).
  - apply (proj2 (unsupported_value_is_not_rejected
                    [] "" "baseUrl" (Identifier "url") [("baseUrl", VNumber 1)]
                    eq_refl eq_refl)).
    left. exists 1%N. reflexivity.
Defined.

(** C7 as the specification states it fails on an identifier: the
    document [defineConfig({baseUrl: url})] decodes without an error,
    [baseUrl] bound to the string ["url"], and is written back with the
    string literal ['url'] in the identifier's place; an array literal
    decodes to [undefined] without an error either. *)
Lemma unsupported_value_is_fatal_counterexample :
  unsupportedValue "baseUrl" (Identifier "url") = true
  /\ fromLiteralToPrimitive (Identifier "url") = VString "url"
  /\ decode (ObjectLiteralExpression [("baseUrl", Identifier "url")])
     = Ok [("baseUrl", VString "url")]
  /\ returned (removeProperties
                 (defineConfig
                    (ObjectLiteralExpression [("baseUrl", Identifier "url")]))
                 [] st0)
     = Ok (defineConfig
             (ObjectLiteralExpression [("baseUrl", StringLiteral "url")]))
  /\ decode (ObjectLiteralExpression [("specPattern", ArrayLiteralExpression [])])
     = Ok [("specPattern", VUndefined)].
Proof. repeat split. Qed.

(** Whatever string fields the map at [devServer] holds, they are
    written as the arguments of the call in the order of the map. *)
Lemma devServer_encoding_follows_map_order (es : list (string * string)) :
  createPropertyAssignment
    "devServer" (VMap (map (fun kv => (fst kv, VString (snd kv))) es))
  = Ok ("devServer",
        componentDevServer (map (fun kv => StringLiteral (snd kv)) es)).
Proof.
  cbn [createPropertyAssignment String.eqb Ascii.eqb Bool.eqb].
  assert (H : mapM createStringLiteral
                   (values (map (fun kv => (fst kv, VString (snd kv))) es))
              = Ok (map (fun kv => StringLiteral (snd kv)) es)).
  { induction es as [|[k v] es IH]; [reflexivity|].
    cbn [map values mapM snd createStringLiteral bind] in *.
    unfold values in IH. rewrite IH. reflexivity. }
  simpl. simpl in H. rewrite H. reflexivity.
Qed.

(** C8, evaluated.  The encoder writes the values of the devServer map
    in the order the map holds them, not in the order of
    [devServerPositionalArgument].  A new configuration that names
    [compiler] before [tsConfig] is written as a call with the compiler
    first; and a merge of [{compiler: "swc"}] into the document whose
    call reads [("tsconfig.json", "babel")] puts ["swc"] where the
    decoder reads [tsConfig]. *)
Theorem positional_arguments_follow_insertion_order :
  createPropertyAssignment
    "devServer" (VMap [("compiler", VString "swc");
                       ("tsConfig", VString "tsconfig.json")])
  = Ok ("devServer",
        componentDevServer [StringLiteral "swc"; StringLiteral "tsconfig.json"])
  /\ returned (addOrUpdateProperties
                 (defineConfig (ObjectLiteralExpression []))
                 [("devServer", VObject [("compiler", VString "swc");
                                         ("tsConfig", VString "tsconfig.json")])]
                 false st0)
     = Ok (defineConfig
             (ObjectLiteralExpression
                [("devServer",
                  componentDevServer [StringLiteral "swc";
                                      StringLiteral "tsconfig.json"])]))
  /\ returned (addOrUpdateProperties
                 (defineConfig config_component_devServer)
                 [("component",
                   VObject [("devServer",
                             VObject [("compiler", VString "swc")])])]
                 false st0)
     = Ok (defineConfig
             (ObjectLiteralExpression
                [("component",
                  ObjectLiteralExpression
                    [("devServer",
                      componentDevServer [StringLiteral "swc";
                                          StringLiteral "tsconfig.json"])])]))
  /\ decode (ObjectLiteralExpression
               [("devServer",
                 componentDevServer [StringLiteral "swc";
                                     StringLiteral "tsconfig.json"])])
     = Ok [("devServer", devServerRecord "swc" "tsconfig.json")].
Proof. repeat split. Qed.

(** ** Overwrite is idempotent *)

Lemma updateExport_overwrite_twice (newConfig : list (string * Value))
      (e e' : Expression) (st st' : Static) :
  updateExport (Upsert newConfig true) e st = Ok (e', st') ->
  st' = st
  /\ forall st2,
      configMetadataMap st2 = configMetadataMap st ->
      updateExport (Upsert newConfig true) e' st2 = Ok (e', st2).
Proof.
  destruct e as [| | | | | | | |callee args]; simpl; try discriminate.
  destruct (createConfigLiteral (configMetadataMap st)) as [config|err] eqn:Hc;
    simpl; [|discriminate].
  intro H. inversion H; subst. split; [reflexivity|].
  intros st2 Hst2. simpl. rewrite Hst2, Hc. reflexivity.
Qed.

Lemma visitStatements_overwrite_twice_of_nodes
      (newConfig : list (string * Value)) (ns : list Node) :
  Forall (fun n => forall st n' st',
              nodeVisitor (Upsert newConfig true) n st = Ok (n', st') ->
              st' = st
              /\ forall st2,
                  configMetadataMap st2 = configMetadataMap st ->
                  nodeVisitor (Upsert newConfig true) n' st2 = Ok (n', st2)) ns ->
  forall st ns' st',
    visitStatements (Upsert newConfig true) ns st = Ok (ns', st') ->
    st' = st
    /\ forall st2,
        configMetadataMap st2 = configMetadataMap st ->
        visitStatements (Upsert newConfig true) ns' st2 = Ok (ns', st2).
Proof.
  induction 1 as [|n ns Hn _ IH]; intros st ns' st'; simpl.
  - intro H. inversion H; subst. split; [reflexivity|].
    intros st2 _. reflexivity.
  - destruct (nodeVisitor (Upsert newConfig true) n st) as [[n1 st1]|err] eqn:H1;
      simpl; [|discriminate].
    destruct (visitStatements (Upsert newConfig true) ns st1)
      as [[ns1 st1']|err] eqn:H2; simpl; [|discriminate].
    intro H. inversion H; subst. clear H.
    destruct (Hn _ _ _ H1) as (-> & Hn1).
    destruct (IH _ _ _ H2) as (-> & Hns1).
    split; [reflexivity|]. intros st2 Hst2. simpl.
    rewrite (Hn1 st2 Hst2). simpl. rewrite (Hns1 st2 Hst2). reflexivity.
Qed.

Lemma nodeVisitor_overwrite_twice (newConfig : list (string * Value))
      (n : Node) :
  forall st n' st',
    nodeVisitor (Upsert newConfig true) n st = Ok (n', st') ->
    st' = st
    /\ forall st2,
        configMetadataMap st2 = configMetadataMap st ->
        nodeVisitor (Upsert newConfig true) n' st2 = Ok (n', st2).
Proof.
  induction n as [e | t cs IH] using Node_nested_ind; intros st n' st'.
  - simpl. unfold visitExportAssignment.
    destruct (updateExport (Upsert newConfig true) e st) as [[e1 st1]|err] eqn:He;
      simpl; [|discriminate].
    intro H. inversion H; subst. clear H.
    destruct (updateExport_overwrite_twice _ _ _ _ _ He) as (-> & He1).
    split; [reflexivity|]. intros st2 Hst2. simpl.
    unfold visitExportAssignment. rewrite (He1 st2 Hst2). reflexivity.
  - rewrite nodeVisitor_OtherNode.
    destruct (visitStatements (Upsert newConfig true) cs st)
      as [[cs1 st1]|err] eqn:Hcs; simpl; [|discriminate].
    intro H. inversion H; subst. clear H.
    destruct (visitStatements_overwrite_twice_of_nodes newConfig cs IH _ _ _ Hcs)
      as (-> & Hcs1).
    split; [reflexivity|]. intros st2 Hst2.
    rewrite nodeVisitor_OtherNode, (Hcs1 st2 Hst2). reflexivity.
Qed.

Lemma visitStatements_overwrite_twice (newConfig : list (string * Value))
      (file file' : SourceFile) (st st' : Static) :
  visitStatements (Upsert newConfig true) file st = Ok (file', st') ->
  st' = st
  /\ forall st2,
      configMetadataMap st2 = configMetadataMap st ->
      visitStatements (Upsert newConfig true) file' st2 = Ok (file', st2).
Proof.
  apply visitStatements_overwrite_twice_of_nodes.
  apply Forall_forall. intros n _. apply nodeVisitor_overwrite_twice.
Qed.

(** On trees, a second overwrite with the same configuration finds
    what the first one wrote. *)
Lemma addOrUpdateProperties_overwrite_twice
      (S : SourceFile) (C : list (string * Value)) (st : Static)
      (S1 : SourceFile) (st1 st2 : Static) :
  addOrUpdateProperties S C true st = Ok (S1, st1) ->
  returned (addOrUpdateProperties S1 C true st2) = Ok S1.
Proof.
  rewrite !addOrUpdateProperties_unfold.
  destruct (loadNewConfig C) as [m|err]; simpl; [|discriminate].
  intro H. destruct (visitStatements_overwrite_twice _ _ _ _ _ H) as (_ & H2).
  rewrite (H2 (mkStatic m [] S1) eq_refl). reflexivity.
Qed.


(** ** The static fields *)

(** C10.  The static fields [configMetadataMap], [propertiesToRemove]
    and [sourceFile] are all assigned at the entry of both
    [removeProperties] and [addOrUpdateProperties], so the outcome of a
    call (the document returned or the error thrown, and the statics
    left behind) is the same whatever the statics held before: it is a
    function of the arguments alone. *)
Theorem entry_points_ignore_previous_state
        (file : SourceFile) (toRemove : list string)
        (newConfig : list (string * Value)) (overwrite : bool)
        (before before' : Static) :
  removeProperties file toRemove before
  = removeProperties file toRemove before'
  /\ addOrUpdateProperties file newConfig overwrite before
     = addOrUpdateProperties file newConfig overwrite before'
  /\ returned (removeProperties file toRemove before)
     = returned (removeProperties file toRemove before')
  /\ returned (addOrUpdateProperties file newConfig overwrite before)
     = returned (addOrUpdateProperties file newConfig overwrite before').
Proof.
  assert (Hremove : removeProperties file toRemove before
                    = removeProperties file toRemove before')
    by (rewrite !removeProperties_unfold; reflexivity).
  assert (Hupsert : addOrUpdateProperties file newConfig overwrite before
                    = addOrUpdateProperties file newConfig overwrite before')
    by (rewrite !addOrUpdateProperties_unfold; reflexivity).
  split; [exact Hremove|]. split; [exact Hupsert|]. split.
  - rewrite Hremove. reflexivity.
  - rewrite Hupsert. reflexivity.
Qed.

(** * Further properties of the transformer *)

(** ** What the visitor leaves alone *)

Lemma visitStatements_Ok (change : Change) (file file' : SourceFile)
      (st st' : Static) :
  visitStatements change file st = Ok (file', st') ->
  skeleton file' = skeleton file
  /\ updateExports change (exportAssignments file) st
     = Ok (exportAssignments file', st').
Proof.
  intro H. pose proof (visitStatements_outcome change file st) as Hout.
  unfold visit_outcome in Hout. rewrite H in Hout.
  destruct (updateExports change (exportAssignments file) st)
    as [[es1 st1]|err]; [|discriminate].
  destruct Hout as (x & Hx & Hexports & Hskel).
  inversion Hx; subst. split; [exact Hskel | reflexivity].
Qed.

Lemma updateExport_shape (change : Change) (e e' : Expression)
      (st st' : Static) :
  updateExport change e st = Ok (e', st') -> rewrittenExport e e'.
Proof.
  destruct e as [| | | | | | | |callee args]; simpl; try discriminate.
  destruct (if readsExisting change
            then match args with
                 | [] => Throw TypeError
                 | rootConfigNode :: _ =>
                     let* m := buildMetadataFromConfig (propertiesToRemove st)
                                 rootConfigNode (configMetadataMap st) "" in
                     Ok (set_configMetadataMap m st)
                 end
            else Ok st) as [st1|err]; simpl; [|discriminate].
  unfold createConfigLiteral.
  destruct (mapM _ (configMetadataMap st1)) as [ps|err]; simpl; [|discriminate].
  intro H. inversion H. exists callee, args, ps. split; reflexivity.
Qed.

Lemma updateExports_shape (change : Change) (es : list Expression) :
  forall es' st st',
    updateExports change es st = Ok (es', st') ->
    Forall2 rewrittenExport es es'.
Proof.
  induction es as [|e es IH]; intros es' st st'; simpl.
  - intro H. inversion H. constructor.
  - destruct (updateExport change e st) as [[e1 st1]|err] eqn:He; simpl;
      [|discriminate].
    destruct (updateExports change es st1) as [[es1 st2]|err] eqn:Hes; simpl;
      [|discriminate].
    intro H. inversion H; subst. constructor.
    + exact (updateExport_shape change e e1 st st1 He).
    + exact (IH _ _ _ Hes).
Qed.

(** X1.  Whenever [removeProperties] or [addOrUpdateProperties]
    returns, the returned document is the given one outside its export
    assignments (same nodes, same texts, same nesting), it has as many
    export assignments, and each of them is the call it was, with the
    same callee, now applied to exactly one object literal. *)
Theorem entry_points_rewrite_exports_only
        (file file' : SourceFile) (toRemove : list string)
        (newConfig : list (string * Value)) (overwrite : bool) (st : Static) :
  returned (removeProperties file toRemove st) = Ok file'
  \/ returned (addOrUpdateProperties file newConfig overwrite st) = Ok file' ->
  skeleton file' = skeleton file
  /\ Forall2 rewrittenExport (exportAssignments file) (exportAssignments file').
Proof.
  intros [H|H].
  - rewrite removeProperties_unfold in H.
    destruct (visitStatements Delete file (mkStatic [] toRemove file))
      as [[f1 st1]|err] eqn:Hv; simpl in H; [|discriminate].
    inversion H; subst f1.
    destruct (visitStatements_Ok _ _ _ _ _ Hv) as (Hskel & Hexp).
    split; [exact Hskel|]. exact (updateExports_shape _ _ _ _ _ Hexp).
  - rewrite addOrUpdateProperties_unfold in H.
    destruct (loadNewConfig newConfig) as [m|err]; simpl in H; [|discriminate].
    destruct (visitStatements (Upsert newConfig overwrite) file
                              (mkStatic m [] file))
      as [[f1 st1]|err] eqn:Hv; simpl in H; [|discriminate].
    inversion H; subst f1.
    destruct (visitStatements_Ok _ _ _ _ _ Hv) as (Hskel & Hexp).
    split; [exact Hskel|]. exact (updateExports_shape _ _ _ _ _ Hexp).
Qed.

Lemma entry_points_rewrite_exports_only_witness :
  skeleton (defineConfig
              (ObjectLiteralExpression
                 [("a", num 1); ("b", ObjectLiteralExpression [("y", num 2)])]))
  = skeleton (defineConfig config_a_bxy).
Proof.
  exact (proj1 (entry_points_rewrite_exports_only
                  (defineConfig config_a_bxy) _ ["b.x"] [] false st0
                  (or_introl eq_refl))).
Defined.

(** ** The reserved key on the way in *)

(** X2.  A call at the key [devServer] with at most two arguments is
    read exactly as the object literal that names its first argument
    [tsConfig] and its second [compiler]: same map, same error, for any
    arguments, callee, removal list, prefix and map. *)
Theorem devServer_call_is_read_as_record
        (toRemove : list string) (parentPrefix : string) (callee : Expression)
        (args : list Expression) (m : MetadataMap) :
  length args <= length devServerPositionalArgument ->
  visitProperty toRemove parentPrefix "devServer"
                (CallExpression callee args) m
  = visitProperty toRemove parentPrefix "devServer"
                  (ObjectLiteralExpression
                     (combine devServerPositionalArgument args)) m.
Proof.
  intro Hlen. destruct args as [|a [|b [|c r]]]; simpl in Hlen; try lia;
    rewrite !visitProperty_unfold; reflexivity.
Qed.

Lemma devServer_call_is_read_as_record_witness :
  visitProperty [] "component" "devServer"
                (componentDevServer [StringLiteral "tsconfig.json";
                                     StringLiteral "babel"]) []
  = visitProperty [] "component" "devServer"
                  (ObjectLiteralExpression
                     [("tsConfig", StringLiteral "tsconfig.json");
                      ("compiler", StringLiteral "babel")]) [].
Proof.
  apply (devServer_call_is_read_as_record
           [] "component" (Identifier "componentDevServer")
           [StringLiteral "tsconfig.json"; StringLiteral "babel"] []).
  simpl. lia.
Defined.

(** ** What is in the map stays in the map *)

Lemma map_get_map_set_other (k n : string) (v : Value) (m : MetadataMap) :
  k <> n -> map_get k (map_set n v m) = map_get k m.
Proof.
  intro Hne. induction m as [|[k' w] m IH]; simpl.
  - destruct (String.eqb_spec k n); [contradiction | reflexivity].
  - destruct (String.eqb_spec n k') as [->|Hn]; simpl.
    + destruct (String.eqb_spec k k'); [contradiction | reflexivity].
    + destruct (String.eqb_spec k k'); [reflexivity | exact IH].
Qed.

Lemma map_get_map_set_same (n : string) (v : Value) (m : MetadataMap) :
  map_get n (map_set n v m) = v.
Proof.
  induction m as [|[k' w] m IH]; simpl.
  - rewrite String.eqb_refl. reflexivity.
  - destruct (String.eqb_spec n k') as [->|Hn]; simpl.
    + rewrite String.eqb_refl. reflexivity.
    + destruct (String.eqb_spec n k'); [contradiction | exact IH].
Qed.

Lemma keys_map_set (n : string) (v : Value) (m : MetadataMap) :
  exists extra, keys (map_set n v m) = keys m ++ extra.
Proof.
  unfold keys. induction m as [|[k' w] m (extra & IH)]; simpl.
  - exists [n]. reflexivity.
  - destruct (String.eqb n k'); simpl.
    + exists []. rewrite app_nil_r. reflexivity.
    + exists extra. rewrite IH. reflexivity.
Qed.

Lemma visitProperty_changes_own_key_store (c : Children) (n : string)
      (e : Expression) (m m1 : MetadataMap) :
  match map_get n m with
  | VMap existingMetadata =>
      match c with
      | Some recurse =>
          let* merged := recurse existingMetadata in
          Ok (map_set n (VMap merged) m)
      | None => Throw TypeError
      end
  | VUndefined =>
      match c with
      | Some recurse =>
          let* childMetadataMap := recurse [] in
          Ok (map_set n (VMap childMetadataMap) m)
      | None => Ok (map_set n (fromLiteralToPrimitive e) m)
      end
  | _ => Ok m
  end = Ok m1 ->
  m1 = m \/ exists v, m1 = map_set n v m.
Proof.
  destruct (map_get n m) as [|k|s|b|es|es]; destruct c as [recurse|];
    try (intro H; inversion H; left; reflexivity);
    try discriminate;
    try (destruct (recurse _) as [child|err]; simpl; [|discriminate]);
    intro H; inversion H; right; eexists; reflexivity.
Qed.

Lemma visitProperty_keeps (toRemove : list string) (p n : string)
      (e : Expression) (m m1 : MetadataMap) :
  visitProperty toRemove p n e m = Ok m1 ->
  (exists extra, keys m1 = keys m ++ extra)
  /\ (forall k, isPrimitive (map_get k m) = true ->
                map_get k m1 = map_get k m)
  /\ (forall k, isMap (map_get k m) = true -> isMap (map_get k m1) = true).
Proof.
  intro H.
  assert (Hkeys : exists extra, keys m1 = keys m ++ extra).
  { destruct (visitProperty_changes_own_key _ _ _ _ _ _ H) as [->|(v & ->)].
    - exists []. rewrite app_nil_r. reflexivity.
    - apply keys_map_set. }
  split; [exact Hkeys|].
  rewrite visitProperty_unfold in H.
  destruct (includes toRemove (propertyPathOf p n)).
  { inversion H; subst m1. split; intros k Hk; [reflexivity | exact Hk]. }
  destruct (childrenOf toRemove (propertyPathOf p n) n e) as [c|err];
    simpl in H; [|discriminate].
  unfold storeProperty in H. split; intros k Hk.
  - destruct (String.eqb_spec k n) as [->|Hne].
    + destruct (map_get n m) eqn:Hg; try discriminate Hk;
        inversion H; subst m1; rewrite Hg; reflexivity.
    + destruct (visitProperty_changes_own_key_store c n e m m1 H)
        as [->|(v & ->)]; [reflexivity|].
      apply map_get_map_set_other. exact Hne.
  - destruct (String.eqb_spec k n) as [->|Hne].
    + destruct (map_get n m) eqn:Hg; try discriminate Hk.
      destruct c as [recurse|]; [|discriminate H].
      destruct (recurse _) as [merged|err]; simpl in H; [|discriminate H].
      inversion H; subst m1. rewrite map_get_map_set_same. reflexivity.
    + destruct (visitProperty_changes_own_key_store c n e m m1 H)
        as [->|(v & ->)]; [exact Hk|].
      rewrite (map_get_map_set_other k n v m Hne). exact Hk.
Qed.

(** X3.  Whatever object literal [buildMetadataFromConfig] reads into
    a map, with whatever paths to remove: if it returns, the keys the
    map had come first in the result in the order they had (new keys
    are appended), and every key that held a number, a string or a
    boolean holds the same value (what is there first wins). *)
Theorem buildMetadataFromConfig_keeps_what_is_there
        (toRemove : list string) (config : Expression) (prefix : string)
        (m m1 : MetadataMap) :
  buildMetadataFromConfig toRemove config m prefix = Ok m1 ->
  (exists extra, keys m1 = keys m ++ extra)
  /\ (forall k, isPrimitive (map_get k m) = true ->
                map_get k m1 = map_get k m).
Proof.
  unfold buildMetadataFromConfig.
  destruct config as [| | | | | | |ps|]; try discriminate.
  revert m. induction ps as [|[n e] ps IH]; intros m H.
  - inversion H; subst m1. split; [|reflexivity].
    exists []. rewrite app_nil_r. reflexivity.
  - rewrite visitProperties_cons in H.
    destruct (visitProperty toRemove prefix n e m) as [m'|err] eqn:Hn;
      simpl in H; [|discriminate].
    destruct (visitProperty_keeps _ _ _ _ _ _ Hn) as ((x1 & Hk1) & Hp1 & _).
    destruct (IH m' H) as ((x2 & Hk2) & Hp2).
    split.
    + exists (x1 ++ x2). rewrite Hk2, Hk1, app_assoc. reflexivity.
    + intros k Hk. rewrite <- (Hp1 k Hk). apply Hp2.
      rewrite (Hp1 k Hk). exact Hk.
Qed.

Lemma buildMetadataFromConfig_keeps_what_is_there_witness :
  (exists extra,
      keys [("b", VMap [("x", VNumber 9); ("y", VNumber 2)]); ("a", VNumber 1)]
      = keys [("b", VMap [("x", VNumber 9)])] ++ extra)
  /\ (forall k,
         isPrimitive (map_get k [("b", VMap [("x", VNumber 9)])]) = true ->
         map_get k [("b", VMap [("x", VNumber 9); ("y", VNumber 2)]);
                    ("a", VNumber 1)]
         = map_get k [("b", VMap [("x", VNumber 9)])]).
Proof.
  exact (buildMetadataFromConfig_keeps_what_is_there
           [] config_a_bxy "" [("b", VMap [("x", VNumber 9)])] _ eq_refl).
Defined.

(** ** A record cannot be merged into a literal *)

Lemma visitProperties_record_over_literal
      (toRemove : list string) (p k : string) (e : Expression)
      (ps : list PropertyAssignment) :
  includes toRemove (propertyPathOf p k) = false ->
  recordShaped k e = false ->
  In (k, e) ps ->
  forall m,
    isMap (map_get k m) = true ->
    visitProperties toRemove p ps m = Throw TypeError.
Proof.
  intros Hkeep Hshape. induction ps as [|[n e0] ps IH]; intros Hin m Hmap.
  - destruct Hin.
  - rewrite visitProperties_cons.
    destruct (visitProperty toRemove p n e0 m) as [m'|[]] eqn:Hn; simpl;
      [|reflexivity].
    destruct Hin as [Heq|Hin].
    + inversion Heq; subst n e0. exfalso.
      rewrite visitProperty_unfold, Hkeep in Hn.
      assert (Hc : childrenOf toRemove (propertyPathOf p k) k e = Ok None).
      { destruct e; simpl in Hshape; try discriminate; try reflexivity.
        simpl. rewrite Hshape. reflexivity. }
      rewrite Hc in Hn. simpl in Hn. unfold storeProperty in Hn.
      destruct (map_get k m); discriminate.
    + apply (IH Hin).
      exact (proj2 (proj2 (visitProperty_keeps _ _ _ _ _ _ Hn)) k Hmap).
Qed.

(** X4.  A merge ([overwrite = false]) of a new configuration that
    holds a record at a key [k] into a document whose configuration
    literal has, among its properties, [k] bound to something that is
    no object literal (and no call at [devServer]) does not return: it
    throws the [TypeError] of the unchecked cast, wherever in the
    literal that property stands. *)
Theorem merging_record_into_literal_throws
        (file : SourceFile) (callee : Expression)
        (ps : list PropertyAssignment) (rest : list Expression)
        (newConfig : list (string * Value)) (m0 : MetadataMap)
        (k : string) (e : Expression) (st : Static) :
  exportAssignments file
  = [CallExpression callee (ObjectLiteralExpression ps :: rest)] ->
  loadNewConfig newConfig = Ok m0 ->
  isMap (map_get k m0) = true ->
  In (k, e) ps ->
  recordShaped k e = false ->
  returned (addOrUpdateProperties file newConfig false st) = Throw TypeError.
Proof.
  intros Hfile Hload Hmap Hin Hshape.
  rewrite addOrUpdateProperties_unfold, Hload, bind_Ok.
  pose proof (visitStatements_outcome (Upsert newConfig false) file
                                      (mkStatic m0 [] file)) as Hout.
  unfold visit_outcome in Hout. rewrite Hfile in Hout. simpl in Hout.
  rewrite (visitProperties_record_over_literal [] "" k e ps eq_refl Hshape
             Hin m0 Hmap) in Hout.
  simpl in Hout. rewrite Hout. reflexivity.
Qed.

Lemma merging_record_into_literal_throws_witness :
  returned (addOrUpdateProperties
              (defineConfig
                 (ObjectLiteralExpression [("a", num 1); ("b", num 5)]))
              newConfig_bx9 false st0)
  = Throw TypeError.
Proof.
  apply (merging_record_into_literal_throws
           (defineConfig (ObjectLiteralExpression [("a", num 1); ("b", num 5)]))
           (Identifier "defineConfig") [("a", num 1); ("b", num 5)] []
           newConfig_bx9 [("b", VMap [("x", VNumber 9)])] "b" (num 5) st0);
    try reflexivity.
  right. left. reflexivity.
Defined.

(** ** The codec, there and back *)

Lemma createPropertyAssignment_entries (es : list (string * Value)) :
  (fix entries_loop (es : list (string * Value))
     : Result (list PropertyAssignment) :=
     match es with
     | [] => Ok []
     | (configKey, configValue) :: r =>
         let* p := createPropertyAssignment configKey configValue in
         let* ps := entries_loop r in
         Ok (p :: ps)
     end) es
  = mapM (fun kv => createPropertyAssignment (fst kv) (snd kv)) es.
Proof.
  induction es as [|[k v] es IH]; [reflexivity|].
  simpl. rewrite IH. reflexivity.
Qed.

Lemma createPropertyAssignment_VMap (key : string) (es : list (string * Value)) :
  String.eqb key "devServer" = false ->
  createPropertyAssignment key (VMap es)
  = let* ps := mapM (fun kv => createPropertyAssignment (fst kv) (snd kv)) es in
    Ok (key, ObjectLiteralExpression ps).
Proof.
  intro Hkey. cbn [createPropertyAssignment]. rewrite Hkey.
  rewrite createPropertyAssignment_entries. reflexivity.
Qed.

Lemma createPropertyAssignment_VObject (key : string)
      (es : list (string * Value)) :
  createPropertyAssignment key (VObject es)
  = let* ps := mapM (fun kv => createPropertyAssignment (fst kv) (snd kv)) es in
    Ok (key, ObjectLiteralExpression ps).
Proof.
  cbn [createPropertyAssignment].
  rewrite createPropertyAssignment_entries. reflexivity.
Qed.

Lemma visitProperty_object_from_empty (p key : string)
      (ps : list PropertyAssignment) (child : MetadataMap) :
  visitProperties [] (propertyPathOf p key) ps [] = Ok child ->
  visitProperty [] p key (ObjectLiteralExpression ps) [] = Ok [(key, VMap child)].
Proof.
  intro H. rewrite visitProperty_unfold. simpl.
  unfold storeProperty. simpl. rewrite H. reflexivity.
Qed.

(** Entries with distinct keys that each encode to a property decoding
    back to the entry encode, together, to properties that decode back
    to the entries. *)
Lemma entries_round_trip (target : Value -> Value)
      (es : list (string * Value)) :
  distinct (map fst es) = true ->
  Forall (fun kv => exists e,
              createPropertyAssignment (fst kv) (snd kv) = Ok (fst kv, e)
              /\ forall p, visitProperty [] p (fst kv) e []
                           = Ok [(fst kv, target (snd kv))]) es ->
  exists ps,
    mapM (fun kv => createPropertyAssignment (fst kv) (snd kv)) es = Ok ps
    /\ map fst ps = map fst es
    /\ forall q, visitProperties [] q ps []
                 = Ok (map (fun kv => (fst kv, target (snd kv))) es).
Proof.
  intros Hd H. induction H as [|[k v] es (e & Henc & Hdec) _ IH].
  - exists []. repeat split.
  - simpl map in Hd. apply distinct_cons in Hd. destruct Hd as [Hk Hd].
    destruct (IH Hd) as (ps & Hps & Hnames & Hvisit).
    simpl in Henc, Hdec.
    exists ((k, e) :: ps). split; [|split].
    + simpl. rewrite Henc. simpl. rewrite Hps. reflexivity.
    + simpl. rewrite Hnames. reflexivity.
    + intro q. rewrite visitProperties_cons, Hdec. rewrite bind_Ok.
      rewrite (visitProperties_fresh [] q ps).
      * rewrite Hvisit. reflexivity.
      * rewrite Hnames. exact Hd.
      * intros n Hn [Hin|[]]. simpl in Hin. subst n.
        rewrite Hnames in Hn. exact (Hk Hn).
Qed.

Lemma map_target_id (es : list (string * Value)) :
  map (fun kv : string * Value => (fst kv, snd kv)) es = es.
Proof.
  induction es as [|[k v] es IH]; simpl; [|rewrite IH]; reflexivity.
Qed.

Lemma positional_inv (es : list (string * Value)) :
  positional devServerPositionalArgument es = true ->
  es = []
  \/ (exists a, es = [("tsConfig", VString a)])
  \/ (exists a b, es = [("tsConfig", VString a); ("compiler", VString b)]).
Proof.
  destruct es as [|[k1 v1] es]; [left; reflexivity|].
  simpl. destruct v1 as [| |a| | |]; try discriminate.
  intro H. apply andb_true_iff in H. destruct H as [H1 H].
  apply String.eqb_eq in H1. subst k1.
  destruct es as [|[k2 v2] es]; [right; left; eauto|].
  simpl in H. destruct v2 as [| |b| | |]; try discriminate.
  apply andb_true_iff in H. destruct H as [H2 H].
  apply String.eqb_eq in H2. subst k2.
  destruct es as [|[k3 v3] es]; [right; right; eauto|].
  simpl in H. destruct v3; discriminate.
Qed.

Lemma value_encodes_and_decodes (v : Value) : encodes_and_decodes v.
Proof.
  induction v as [|n|s|b|es _|es IH] using Value_nested_ind; intros key Hwf;
    try discriminate Hwf.
  - exists (NumericLiteral n). split; [reflexivity|]. intro p.
    rewrite visitProperty_unfold. reflexivity.
  - exists (StringLiteral s). split; [reflexivity|]. intro p.
    rewrite visitProperty_unfold. reflexivity.
  - exists (if b then TrueKeyword else FalseKeyword). split; [reflexivity|].
    intro p. rewrite visitProperty_unfold. destruct b; reflexivity.
  - cbn [wellFormedValue] in Hwf.
    destruct (String.eqb_spec key "devServer") as [Hk|Hkey].
    + subst key.
      destruct (positional_inv es Hwf)
        as [->|[(a & ->)|(a & b & ->)]];
        (eexists; split; [reflexivity|]; intro p;
         rewrite visitProperty_unfold; reflexivity).
    + apply String.eqb_neq in Hkey.
      apply andb_true_iff in Hwf. destruct Hwf as [Hd Hall].
      destruct (entries_round_trip (fun v => v) es Hd) as (ps & Hps & _ & Hvisit).
      { rewrite forallb_forall in Hall. rewrite Forall_forall in IH.
        apply Forall_forall. intros kv Hin.
        exact (IH kv Hin (fst kv) (Hall kv Hin)). }
      exists (ObjectLiteralExpression ps). split.
      * rewrite (createPropertyAssignment_VMap key es Hkey), Hps. reflexivity.
      * intro p. apply visitProperty_object_from_empty.
        rewrite Hvisit, map_target_id. reflexivity.
Qed.

Lemma createConfigLiteral_decode (X : MetadataMap) :
  wellFormedConfiguration X = true ->
  exists ps,
    createConfigLiteral X = Ok (ObjectLiteralExpression ps)
    /\ decode (ObjectLiteralExpression ps) = Ok X.
Proof.
  intro Hwf. unfold wellFormedConfiguration in Hwf.
  apply andb_true_iff in Hwf. destruct Hwf as [Hd Hall].
  destruct (entries_round_trip (fun v => v) X Hd) as (ps & Hps & _ & Hvisit).
  { rewrite forallb_forall in Hall. apply Forall_forall. intros kv Hin.
    exact (value_encodes_and_decodes (snd kv) (fst kv) (Hall kv Hin)). }
  exists ps. split.
  - unfold createConfigLiteral. rewrite Hps. reflexivity.
  - unfold decode, buildMetadataFromConfig.
    rewrite Hvisit, map_target_id. reflexivity.
Qed.

(** X5.  A well-formed configuration (numbers, strings, booleans and
    maps of such with distinct keys, the map at a key [devServer]
    holding strings under [tsConfig], then [compiler]) is written by
    the encoder as an object literal that the decoder reads back as the
    very same configuration, entry for entry and in the same order. *)
Theorem encode_then_decode (X : MetadataMap) :
  wellFormedConfiguration X = true ->
  exists config,
    createConfigLiteral X = Ok config /\ decode config = Ok X.
Proof.
  intro Hwf. destruct (createConfigLiteral_decode X Hwf) as (ps & Henc & Hdec).
  exists (ObjectLiteralExpression ps). split; assumption.
Qed.

Lemma encode_then_decode_witness :
  exists config,
    createConfigLiteral
      [("baseUrl", VString "http://localhost:4200");
       ("component",
        VMap [("devServer", devServerRecord "tsconfig.json" "babel");
              ("video", VBoolean true)])]
    = Ok config
    /\ decode config
       = Ok [("baseUrl", VString "http://localhost:4200");
             ("component",
              VMap [("devServer", devServerRecord "tsconfig.json" "babel");
                    ("video", VBoolean true)])].
Proof.
  apply encode_then_decode. reflexivity.
Defined.

(** ** Loading a new configuration *)

Lemma value_loads_as_map (v : Value) : loads_as_map v.
Proof.
  induction v as [|n|s|b|es IH|es _] using Value_nested_ind; intros key Hplain;
    try discriminate Hplain.
  - exists (NumericLiteral n). split; [reflexivity|]. intro p.
    rewrite visitProperty_unfold. reflexivity.
  - exists (StringLiteral s). split; [reflexivity|]. intro p.
    rewrite visitProperty_unfold. reflexivity.
  - exists (if b then TrueKeyword else FalseKeyword). split; [reflexivity|].
    intro p. rewrite visitProperty_unfold. destruct b; reflexivity.
  - cbn [plainValue] in Hplain. apply andb_true_iff in Hplain.
    destruct Hplain as [Hd Hall].
    destruct (entries_round_trip asMap es Hd) as (ps & Hps & _ & Hvisit).
    { rewrite forallb_forall in Hall. rewrite Forall_forall in IH.
      apply Forall_forall. intros kv Hin.
      exact (IH kv Hin (fst kv) (Hall kv Hin)). }
    exists (ObjectLiteralExpression ps). split.
    + rewrite createPropertyAssignment_VObject, Hps. reflexivity.
    + intro p. apply visitProperty_object_from_empty. apply Hvisit.
Qed.

Lemma loadNewConfig_plain (C : list (string * Value)) :
  plainConfiguration C = true -> loadNewConfig C = Ok (asMapEntries C).
Proof.
  intro Hplain. unfold plainConfiguration in Hplain.
  apply andb_true_iff in Hplain. destruct Hplain as [Hd Hall].
  destruct (entries_round_trip asMap C Hd) as (ps & Hps & _ & Hvisit).
  { rewrite forallb_forall in Hall. apply Forall_forall. intros kv Hin.
    exact (value_loads_as_map (snd kv) (fst kv) (Hall kv Hin)). }
  unfold loadNewConfig, createConfigLiteral. rewrite Hps. simpl.
  apply Hvisit.
Qed.

(** X6.  A new configuration that keeps the input contract (nested
    plain objects with distinct keys, numbers, strings and booleans at
    the leaves) always loads: the transformer factory encodes it and
    reads it into the fresh map as the same tree with maps for objects,
    keys in the order given; an object at the key [devServer] is
    loaded as a map like any other. *)
Theorem plain_configuration_loads (C : list (string * Value)) :
  plainConfiguration C = true ->
  loadNewConfig C = Ok (asMapEntries C)
  /\ keys (asMapEntries C) = map fst C.
Proof.
  intro Hplain. split; [exact (loadNewConfig_plain C Hplain)|].
  unfold keys, asMapEntries. rewrite map_map. reflexivity.
Qed.

Lemma plain_configuration_loads_witness :
  loadNewConfig
    [("baseUrl", VString "http://localhost:1234");
     ("component",
      VObject [("devServer", VObject [("tsConfig", VString "tsconfig.spec.json");
                                      ("compiler", VString "swc")]);
               ("video", VBoolean false)])]
  = Ok [("baseUrl", VString "http://localhost:1234");
        ("component",
         VMap [("devServer", devServerRecord "tsconfig.spec.json" "swc");
               ("video", VBoolean false)])].
Proof.
  exact (proj1 (plain_configuration_loads
                  [("baseUrl", VString "http://localhost:1234");
                   ("component",
                    VObject [("devServer",
                              VObject [("tsConfig", VString "tsconfig.spec.json");
                                       ("compiler", VString "swc")]);
                             ("video", VBoolean false)])]
                  eq_refl)).
Defined.

(** ** Removal, on every document *)

Lemma pruneValue_nothing (v : Value) : pruning_nothing_at v.
Proof.
  induction v as [|n|s|b|es _|es IH] using Value_nested_ind; intro path;
    try reflexivity.
  rewrite pruneValue_VMap. f_equal.
  induction IH as [|[k w] es Hw _ IHes]; [reflexivity|].
  simpl in Hw |- *. rewrite Hw, IHes. reflexivity.
Qed.

Lemma prune_nothing (prefix : string) (m : MetadataMap) : prune [] prefix m = m.
Proof.
  pose proof (pruneValue_nothing (VMap m) prefix) as H.
  rewrite pruneValue_VMap in H. inversion H as [H']. rewrite H'. exact H'.
Qed.

Lemma pruneValue_twice (toRemove : list string) (v : Value) :
  pruning_twice_at toRemove v.
Proof.
  induction v as [|n|s|b|es _|es IH] using Value_nested_ind; intro path;
    try reflexivity.
  rewrite !pruneValue_VMap. f_equal.
  induction IH as [|[k w] es Hw _ IHes]; [reflexivity|].
  cbn [prune snd] in Hw |- *.
  destruct (includes toRemove (propertyPathOf path k)) eqn:Hinc; [exact IHes|].
  cbn [prune]. rewrite Hinc, Hw, IHes. reflexivity.
Qed.

Lemma prune_twice (toRemove : list string) (prefix : string) (m : MetadataMap) :
  prune toRemove prefix (prune toRemove prefix m) = prune toRemove prefix m.
Proof.
  pose proof (pruneValue_twice toRemove (VMap m) prefix) as H.
  rewrite !pruneValue_VMap in H. inversion H as [H']. rewrite H'. exact H'.
Qed.

Lemma removal_on_decoded
      (file : SourceFile) (X : MetadataMap) (toRemove : list string)
      (st : Static) :
  decodedConfiguration file = Some (Ok X) ->
  wellFormedConfiguration (prune toRemove "" X) = true ->
  exists file' callee ps rest,
    exportAssignments file = [CallExpression callee rest]
    /\ returned (removeProperties file toRemove st) = Ok file'
    /\ exportAssignments file'
       = [CallExpression callee [ObjectLiteralExpression ps]]
    /\ createConfigLiteral (prune toRemove "" X)
       = Ok (ObjectLiteralExpression ps)
    /\ decode (ObjectLiteralExpression ps) = Ok (prune toRemove "" X)
    /\ skeleton file' = skeleton file.
Proof.
  unfold decodedConfiguration.
  destruct (recognizedExport file) as [config|] eqn:Hrec; [|discriminate].
  cbn [option_map]. intros Hdec Hwf. inversion Hdec as [Hdec'].
  destruct (recognizedExport_inv file config Hrec) as (callee & rest & Hfile).
  destruct (createConfigLiteral_decode _ Hwf) as (ps & Henc & Hback).
  destruct (removal_literal file callee rest config toRemove _ _ st Hfile
              (removal_prunes_decoded toRemove config X Hdec') Henc)
    as (file' & Hret & Hexports & Hskel).
  exists file', callee, ps, (config :: rest). repeat split; assumption.
Qed.

(** ** Removing twice *)

Lemma determined_nodes (ns1 : list Node) :
  Forall determined_node ns1 ->
  forall ns2 r1 r2,
    map skeletonOfNode ns1 = map skeletonOfNode ns2 ->
    flat_map exportsOfNode ns1 ++ r1 = flat_map exportsOfNode ns2 ++ r2 ->
    ns1 = ns2 /\ r1 = r2.
Proof.
  induction 1 as [|n1 ns1 Hn _ IH]; intros [|n2 ns2] r1 r2 Hs He;
    try discriminate Hs.
  - split; [reflexivity | exact He].
  - simpl in Hs, He. inversion Hs as [[Hs1 Hs2]].
    rewrite <- !app_assoc in He.
    destruct (Hn n2 _ _ Hs1 He) as (-> & He').
    destruct (IH ns2 r1 r2 Hs2 He') as (-> & ->).
    split; reflexivity.
Qed.

Lemma node_determined (n : Node) : determined_node n.
Proof.
  induction n as [e | t cs IH] using Node_nested_ind;
    intros [e2 | t2 cs2] r1 r2 Hs He; try discriminate Hs.
  - simpl in He. inversion He. split; reflexivity.
  - simpl in Hs, He. inversion Hs as [[Ht Hcs]].
    destruct (determined_nodes cs IH cs2 r1 r2 Hcs He) as (-> & ->).
    split; reflexivity.
Qed.

Lemma skeleton_and_exports_determine (file1 file2 : SourceFile) :
  skeleton file1 = skeleton file2 ->
  exportAssignments file1 = exportAssignments file2 ->
  file1 = file2.
Proof.
  intros Hs He. unfold skeleton, exportAssignments in *.
  destruct (determined_nodes file1
              (proj2 (Forall_forall _ _) (fun n _ => node_determined n))
              file2 [] [] Hs) as (H & _).
  - rewrite !app_nil_r. exact He.
  - exact H.
Qed.

(** ** A removed path is nowhere in the map *)

Lemma pathsOfValue_VMap (path : string) (es : list (string * Value)) :
  pathsOfValue path (VMap es) = pathsOf path es.
Proof.
  simpl. induction es as [|[k w] es IH]; simpl; [reflexivity|].
  rewrite IH. reflexivity.
Qed.

Lemma pathsOfValue_primitive (path : string) (e : Expression) :
  pathsOfValue path (fromLiteralToPrimitive e) = [].
Proof. destruct e; reflexivity. Qed.

Lemma pathsOf_map_set (p n q : string) (v : Value) (m : MetadataMap) :
  In q (pathsOf p (map_set n v m)) ->
  In q (pathsOf p m) \/ q = propertyPathOf p n
  \/ In q (pathsOfValue (propertyPathOf p n) v).
Proof.
  induction m as [|[k w] m IH]; simpl.
  - rewrite app_nil_r. intros [H|H]; [right; left; symmetry; exact H|].
    right. right. exact H.
  - destruct (String.eqb_spec n k) as [->|Hne]; simpl.
    + intros [H|H]; [left; left; exact H|].
      apply in_app_or in H. destruct H as [H|H].
      * right. right. exact H.
      * left. right. apply in_or_app. right. exact H.
    + intros [H|H]; [left; left; exact H|].
      apply in_app_or in H. destruct H as [H|H].
      * left. right. apply in_or_app. left. exact H.
      * destruct (IH H) as [H'|H']; [|right; exact H'].
        left. right. apply in_or_app. right. exact H'.
Qed.

Lemma pathsOf_map_get (p n q : string) (es : list (string * Value))
      (m : MetadataMap) :
  map_get n m = VMap es ->
  In q (pathsOf (propertyPathOf p n) es) -> In q (pathsOf p m).
Proof.
  induction m as [|[k w] m IH]; simpl; [discriminate|].
  destruct (String.eqb_spec n k) as [->|Hne].
  - intros -> H. right. apply in_or_app. left.
    rewrite pathsOfValue_VMap. exact H.
  - intros Hg H. right. apply in_or_app. right. exact (IH Hg H).
Qed.

Lemma visitProperty_clean_by_children (toRemove : list string)
      (e : Expression) :
  (forall path n c,
      childrenOf toRemove path n e = Ok c ->
      children_keep_clean toRemove path c) ->
  keeps_clean_at toRemove e.
Proof.
  intros Hchildren p n m m1 Hvisit Hclean.
  rewrite visitProperty_unfold in Hvisit.
  destruct (includes toRemove (propertyPathOf p n)) eqn:Hinc.
  { inversion Hvisit; subst m1. exact Hclean. }
  destruct (childrenOf toRemove (propertyPathOf p n) n e) as [c|err] eqn:Hc;
    simpl in Hvisit; [|discriminate].
  pose proof (Hchildren _ _ _ Hc) as Hrec. unfold storeProperty in Hvisit.
  destruct (map_get n m) as [|k|s|b|es|es] eqn:Hg;
    try (inversion Hvisit; subst m1; exact Hclean).
  - destruct c as [recurse|].
    + destruct (recurse []) as [child|err] eqn:Hr; simpl in Hvisit;
        [|discriminate].
      inversion Hvisit; subst m1. intros q Hq.
      destruct (pathsOf_map_set _ _ _ _ _ Hq) as [H|[->|H]].
      * exact (Hclean q H).
      * exact Hinc.
      * rewrite pathsOfValue_VMap in H.
        apply (Hrec [] child Hr); [|exact H]. intros q' [].
    + inversion Hvisit; subst m1. intros q Hq.
      destruct (pathsOf_map_set _ _ _ _ _ Hq) as [H|[->|H]].
      * exact (Hclean q H).
      * exact Hinc.
      * rewrite pathsOfValue_primitive in H. destruct H.
  - destruct c as [recurse|]; [|discriminate].
    destruct (recurse es) as [merged|err] eqn:Hr; simpl in Hvisit;
      [|discriminate].
    inversion Hvisit; subst m1. intros q Hq.
    destruct (pathsOf_map_set _ _ _ _ _ Hq) as [H|[->|H]].
    + exact (Hclean q H).
    + exact Hinc.
    + rewrite pathsOfValue_VMap in H.
      apply (Hrec es merged Hr); [|exact H].
      intros q' Hq'. apply Hclean. exact (pathsOf_map_get p n q' es m Hg Hq').
Qed.

Lemma properties_keep_clean (toRemove : list string)
      (ps : list PropertyAssignment) :
  Forall (fun p => keeps_clean_at toRemove (snd p)) ps ->
  forall q m m1,
    visitProperties toRemove q ps m = Ok m1 ->
    clean toRemove q m -> clean toRemove q m1.
Proof.
  induction 1 as [|[n e] ps He _ IH]; intros q m m1 Hvisit Hclean.
  - inversion Hvisit; subst m1. exact Hclean.
  - cbn [snd] in He. rewrite visitProperties_cons in Hvisit.
    destruct (visitProperty toRemove q n e m) as [m'|err] eqn:H1;
      simpl in Hvisit; [|discriminate].
    exact (IH q m' m1 Hvisit (He q n m m' H1 Hclean)).
Qed.

Lemma arguments_keep_clean (toRemove : list string) (args : list Expression) :
  Forall (keeps_clean_at toRemove) args ->
  forall q index m m1,
    forEachIndexed
      (fun index arg m =>
         match nth_error devServerPositionalArgument index with
         | Some name => visitProperty toRemove q name arg m
         | None => Throw TypeError
         end) index args m = Ok m1 ->
    clean toRemove q m -> clean toRemove q m1.
Proof.
  induction 1 as [|a args Ha _ IH]; intros q index m m1 Hvisit Hclean.
  - inversion Hvisit; subst m1. exact Hclean.
  - cbn [forEachIndexed] in Hvisit.
    destruct (nth_error devServerPositionalArgument index) as [name|];
      [|discriminate].
    destruct (visitProperty toRemove q name a m) as [m'|err] eqn:H1;
      simpl in Hvisit; [|discriminate].
    exact (IH q _ m' m1 Hvisit (Ha q name m m' H1 Hclean)).
Qed.

Lemma expression_keeps_clean (toRemove : list string) (e : Expression) :
  keeps_clean_at toRemove e.
Proof.
  induction e as [k| | |s|s| |es _|ps IH|f args _ IHargs]
    using Expression_nested_ind;
    apply visitProperty_clean_by_children; intros path n c Hc;
    unfold childrenOf in Hc;
    try (inversion Hc; subst c; exact I).
  - inversion Hc; subst c. intros x x1.
    apply (properties_keep_clean toRemove ps IH).
  - destruct (String.eqb n "devServer").
    + destruct (Nat.ltb (length devServerPositionalArgument) (length args));
        [discriminate|].
      inversion Hc; subst c. intros x x1.
      apply (arguments_keep_clean toRemove args IHargs).
    + inversion Hc; subst c. exact I.
Qed.

(** X11.  Whatever object literal [buildMetadataFromConfig] reads into
    the empty map, supported values or not, duplicate names or not: if
    it returns, no path that was to be removed is the path of an entry
    of the map it returns, at any depth. *)
Theorem removed_paths_are_nowhere
        (toRemove : list string) (config : Expression) (m : MetadataMap)
        (path : string) :
  buildMetadataFromConfig toRemove config [] "" = Ok m ->
  In path toRemove ->
  ~ In path (pathsOf "" m).
Proof.
  unfold buildMetadataFromConfig.
  destruct config as [| | | | | | |ps|]; try discriminate.
  intros Hbuild Hin Hpath.
  assert (Hclean : clean toRemove "" m).
  { apply (properties_keep_clean toRemove ps) with (q := "") (m := []).
    - apply Forall_forall. intros x _. apply expression_keeps_clean.
    - exact Hbuild.
    - intros q []. }
  pose proof (Hclean path Hpath) as Hfalse.
  assert (Htrue : includes toRemove path = true).
  { unfold includes. apply existsb_exists. exists path.
    split; [exact Hin | apply String.eqb_refl]. }
  rewrite Htrue in Hfalse. discriminate.
Qed.

Lemma removed_paths_are_nowhere_witness :
  ~ In "component.devServer"
       (pathsOf "" [("component", VMap [("video", VBoolean true)])]).
Proof.
  apply (removed_paths_are_nowhere
           ["component.devServer"]
           (ObjectLiteralExpression
              [("component",
                ObjectLiteralExpression
                  [("devServer",
                    componentDevServer [StringLiteral "tsconfig.json";
                                        StringLiteral "babel"]);
                   ("video", TrueKeyword)])])
           [("component", VMap [("video", VBoolean true)])]
           "component.devServer").
  - reflexivity.
  - left. reflexivity.
Defined.

(** ** A merge loses no key *)

Lemma createPropertyAssignment_key (key : string) (v : Value)
      (p : PropertyAssignment) :
  createPropertyAssignment key v = Ok p -> fst p = key.
Proof.
  destruct v as [|n|s|b|es|es]; cbn [createPropertyAssignment].
  - discriminate.
  - intro H. inversion H. reflexivity.
  - intro H. inversion H. reflexivity.
  - intro H. inversion H. reflexivity.
  - rewrite createPropertyAssignment_entries.
    destruct (mapM _ es); simpl; [|discriminate].
    intro H. inversion H. reflexivity.
  - destruct (String.eqb_spec key "devServer") as [Hk|Hk].
    + destruct (mapM createStringLiteral (values es)); simpl; [|discriminate].
      intro H. inversion H. symmetry. exact Hk.
    + rewrite createPropertyAssignment_entries.
      destruct (mapM _ es); simpl; [|discriminate].
      intro H. inversion H. reflexivity.
Qed.

Lemma createConfigLiteral_keys (m : MetadataMap) (ps : list PropertyAssignment) :
  createConfigLiteral m = Ok (ObjectLiteralExpression ps) ->
  map fst ps = keys m.
Proof.
  unfold createConfigLiteral.
  destruct (mapM (fun kv => createPropertyAssignment (fst kv) (snd kv)) m)
    as [ps'|err] eqn:Hm; simpl; [|discriminate].
  intro H. inversion H; subst ps'. clear H. revert ps Hm.
  induction m as [|[k v] m IH]; intros ps Hm; simpl in Hm.
  - inversion Hm. reflexivity.
  - destruct (createPropertyAssignment k v) as [p|err] eqn:Hp; simpl in Hm;
      [|discriminate].
    destruct (mapM _ m) as [ps1|err]; simpl in Hm; [|discriminate].
    inversion Hm; subst ps. simpl.
    rewrite (createPropertyAssignment_key k v p Hp), (IH ps1 eq_refl).
    reflexivity.
Qed.

Lemma map_set_key (n : string) (v : Value) (m : MetadataMap) :
  In n (keys (map_set n v m)).
Proof.
  unfold keys. induction m as [|[k w] m IH]; simpl.
  - left. reflexivity.
  - destruct (String.eqb_spec n k) as [->|Hne]; simpl.
    + left. reflexivity.
    + right. exact IH.
Qed.

Lemma map_get_defined_key (n : string) (m : MetadataMap) :
  map_get n m <> VUndefined -> In n (keys m).
Proof.
  unfold keys. induction m as [|[k w] m IH]; simpl.
  - intro H. exfalso. apply H. reflexivity.
  - destruct (String.eqb_spec n k) as [->|Hne].
    + intros _. left. reflexivity.
    + intro H. right. exact (IH H).
Qed.

Lemma visitProperty_adds_its_key (p n : string) (e : Expression)
      (m m1 : MetadataMap) :
  visitProperty [] p n e m = Ok m1 -> In n (keys m1).
Proof.
  intro H. rewrite visitProperty_unfold in H. simpl in H.
  destruct (childrenOf [] (propertyPathOf p n) n e) as [c|err]; simpl in H;
    [|discriminate].
  unfold storeProperty in H.
  destruct (map_get n m) as [|k|s|b|es|es] eqn:Hg;
    try (inversion H; subst m1; apply map_get_defined_key; rewrite Hg;
         discriminate).
  - destruct c as [recurse|].
    + destruct (recurse []); simpl in H; [|discriminate].
      inversion H. apply map_set_key.
    + inversion H. apply map_set_key.
  - destruct c as [recurse|]; [|discriminate].
    destruct (recurse es); simpl in H; [|discriminate].
    inversion H. apply map_set_key.
Qed.

Lemma visitProperties_keep_every_key (p : string)
      (ps : list PropertyAssignment) :
  forall m m1,
    visitProperties [] p ps m = Ok m1 ->
    forall k, In k (keys m) \/ In k (map fst ps) -> In k (keys m1).
Proof.
  induction ps as [|[n e] ps IH]; intros m m1 H k Hk.
  - inversion H; subst m1. destruct Hk as [Hk|[]]. exact Hk.
  - rewrite visitProperties_cons in H.
    destruct (visitProperty [] p n e m) as [m'|err] eqn:Hn; simpl in H;
      [|discriminate].
    apply (IH m' m1 H). simpl in Hk. destruct Hk as [Hk|[Hk|Hk]].
    + left. destruct (visitProperty_keeps _ _ _ _ _ _ Hn) as ((x & Hx) & _).
      rewrite Hx. apply in_or_app. left. exact Hk.
    + left. subst k. exact (visitProperty_adds_its_key _ _ _ _ _ Hn).
    + right. exact Hk.
Qed.

(** X12.  A merge ([overwrite = false]) that returns loses no key: the
    object literal written into the export names every top-level key
    of the loaded new configuration and every top-level property name
    of the literal that was there. *)
Theorem merge_loses_no_key
        (file file' : SourceFile) (callee : Expression)
        (ps : list PropertyAssignment) (rest : list Expression)
        (newConfig : list (string * Value)) (m0 : MetadataMap) (st : Static) :
  exportAssignments file
  = [CallExpression callee (ObjectLiteralExpression ps :: rest)] ->
  loadNewConfig newConfig = Ok m0 ->
  returned (addOrUpdateProperties file newConfig false st) = Ok file' ->
  exists ps',
    exportAssignments file'
    = [CallExpression callee [ObjectLiteralExpression ps']]
    /\ forall k, In k (keys m0) \/ In k (map fst ps) -> In k (map fst ps').
Proof.
  intros Hfile Hload Hret.
  rewrite addOrUpdateProperties_unfold, Hload, bind_Ok in Hret.
  destruct (visitStatements (Upsert newConfig false) file (mkStatic m0 [] file))
    as [[f1 st1]|err] eqn:Hv; simpl in Hret; [|discriminate].
  inversion Hret; subst f1.
  destruct (visitStatements_Ok _ _ _ _ _ Hv) as (_ & Hupd).
  rewrite Hfile in Hupd. simpl in Hupd.
  destruct (visitProperties [] "" ps m0) as [m1|err] eqn:Hbuild; simpl in Hupd;
    [|discriminate].
  destruct (createConfigLiteral m1) as [config|err] eqn:Henc; simpl in Hupd;
    [|discriminate].
  inversion Hupd as [[Hexports Hst]].
  assert (Hlit : exists ps', config = ObjectLiteralExpression ps').
  { unfold createConfigLiteral in Henc.
    destruct (mapM _ m1) as [ps'|]; simpl in Henc; [|discriminate].
    inversion Henc. eauto. }
  destruct Hlit as (ps' & ->). exists ps'. split; [reflexivity|].
  intros k Hk. rewrite (createConfigLiteral_keys m1 ps' Henc).
  exact (visitProperties_keep_every_key "" ps m0 m1 Hbuild k Hk).
Qed.

Lemma merge_loses_no_key_witness :
  exists ps',
    exportAssignments
      (defineConfig
         (ObjectLiteralExpression
            [("b", ObjectLiteralExpression [("x", num 9); ("y", num 2)]);
             ("a", num 1)]))
    = [CallExpression (Identifier "defineConfig") [ObjectLiteralExpression ps']]
    /\ forall k,
        In k (keys [("b", VMap [("x", VNumber 9)])])
        \/ In k (map fst [("a", num 1);
                          ("b", ObjectLiteralExpression
                                  [("x", num 1); ("y", num 2)])]) ->
        In k (map fst ps').
Proof.
  exact (merge_loses_no_key
           (defineConfig config_a_bxy) _ (Identifier "defineConfig")
           _ [] newConfig_bx9 [("b", VMap [("x", VNumber 9)])] st0
           eq_refl eq_refl eq_refl).
Defined.

(** * The entry points on text

    What the results on trees say of the entry points as they are
    called, for any parser and printer.  The text returned is the print
    of the tree the transformer built; what its own parse decodes to is
    stated where that tree reads back. *)

Section EntryPointsOnText.

Variable Text : Type.
Variable createSourceFile : Text -> SourceFile.
Variable printFile : SourceFile -> Text.

Lemma removeProperties_on_text (content : Text) (toRemove : list string)
      (st : Static) (file' : SourceFile) :
  returned (removeProperties (createSourceFile content) toRemove st) = Ok file' ->
  CypressConfigTransformer.returned
    (CypressConfigTransformer.removeProperties
       createSourceFile printFile content toRemove st)
  = Ok (printFile file').
Proof.
  unfold CypressConfigTransformer.removeProperties.
  destruct (removeProperties (createSourceFile content) toRemove st)
    as [[file1 st1]|err]; simpl; intro H; inversion H; reflexivity.
Qed.

Lemma addOrUpdateProperties_on_text (content : Text)
      (newConfig : list (string * Value)) (overwrite : bool)
      (st : Static) (file' : SourceFile) :
  returned (addOrUpdateProperties (createSourceFile content)
                                  newConfig overwrite st) = Ok file' ->
  CypressConfigTransformer.returned
    (CypressConfigTransformer.addOrUpdateProperties
       createSourceFile printFile content newConfig overwrite st)
  = Ok (printFile file').
Proof.
  unfold CypressConfigTransformer.addOrUpdateProperties.
  destruct (addOrUpdateProperties (createSourceFile content)
                                  newConfig overwrite st)
    as [[file1 st1]|err]; simpl; intro H; inversion H; reflexivity.
Qed.

(** X7.  With [overwrite = true], for every text whose parse has one
    export assignment that is a call (whatever its arguments are) and
    every new configuration that keeps the input contract (leaves that
    are strings, booleans and non-negative integers) and is well formed
    as a map, [addOrUpdateProperties] returns the print of a tree in
    which the arguments of the exported call are replaced by the one
    literal [createPropertyAssignment] builds from the new
    configuration, every key written as an identifier, and the rest is
    untouched.  That literal decodes to the new configuration and
    nothing else; so where the printed tree reads back, the decoded
    configuration of the returned text is the new configuration. *)
Theorem overwrite_writes_the_new_configuration
        (content : Text) (callee : Expression) (args : list Expression)
        (C : list (string * Value)) (st : Static) :
  exportAssignments (createSourceFile content) = [CallExpression callee args] ->
  plainConfiguration C = true ->
  wellFormedConfiguration (asMapEntries C) = true ->
  exists file' config,
    CypressConfigTransformer.returned
      (CypressConfigTransformer.addOrUpdateProperties
         createSourceFile printFile content C true st)
    = Ok (printFile file')
    /\ createConfigLiteral (asMapEntries C) = Ok config
    /\ exportAssignments file' = [CallExpression callee [config]]
    /\ decode config = Ok (asMapEntries C)
    /\ skeleton file' = skeleton (createSourceFile content)
    /\ (readsBack createSourceFile printFile file' ->
        decodedConfigurationOfText createSourceFile (printFile file')
        = Some (Ok (asMapEntries C))).
Proof.
  intros Hfile Hplain Hwf.
  destruct (createConfigLiteral_decode (asMapEntries C) Hwf)
    as (ps & Henc & Hdec).
  destruct (visit_single_export (Upsert C true) (createSourceFile content)
              (mkStatic (asMapEntries C) [] (createSourceFile content))
              (mkStatic (asMapEntries C) [] (createSourceFile content))
              (CallExpression callee args)
              (CallExpression callee [ObjectLiteralExpression ps]) Hfile)
    as (file' & Hvisit & Hexports & Hskel).
  { simpl. rewrite Henc. reflexivity. }
  exists file', (ObjectLiteralExpression ps).
  split; [|split; [exact Henc|split; [exact Hexports|split;
                   [exact Hdec|split; [exact Hskel|]]]]].
  - apply addOrUpdateProperties_on_text.
    rewrite addOrUpdateProperties_unfold, (loadNewConfig_plain C Hplain), bind_Ok.
    rewrite Hvisit. reflexivity.
  - intro Hback. unfold decodedConfigurationOfText.
    unfold readsBack in Hback. rewrite Hback.
    rewrite (decodedConfiguration_single file' callee ps [] Hexports), Hdec.
    reflexivity.
Qed.

(** X8.  For every text whose recognized export decodes to a
    configuration [X], and every list of paths such that [X] without
    the entries at those paths (at any depth, with all they contain) is
    well formed, [removeProperties] returns the print of a tree in
    which the arguments of the exported call are replaced by the one
    literal [createPropertyAssignment] builds from [X] without those
    entries, every key written as an identifier, and the rest is
    untouched.  That literal decodes to exactly [X] without those
    entries, in the order they had; so where the printed tree reads
    back, that is the decoded configuration of the returned text. *)
Theorem removal_is_pruning
        (content : Text) (X : MetadataMap) (toRemove : list string)
        (st : Static) :
  decodedConfigurationOfText createSourceFile content = Some (Ok X) ->
  wellFormedConfiguration (prune toRemove "" X) = true ->
  exists file' callee rest config,
    exportAssignments (createSourceFile content) = [CallExpression callee rest]
    /\ CypressConfigTransformer.returned
         (CypressConfigTransformer.removeProperties
            createSourceFile printFile content toRemove st)
       = Ok (printFile file')
    /\ createConfigLiteral (prune toRemove "" X) = Ok config
    /\ exportAssignments file' = [CallExpression callee [config]]
    /\ decode config = Ok (prune toRemove "" X)
    /\ skeleton file' = skeleton (createSourceFile content)
    /\ (readsBack createSourceFile printFile file' ->
        decodedConfigurationOfText createSourceFile (printFile file')
        = Some (Ok (prune toRemove "" X))).
Proof.
  intros Hdec Hwf.
  destruct (removal_on_decoded (createSourceFile content) X toRemove st Hdec Hwf)
    as (file' & callee & ps & rest & Hfile & Hret & Hexports & Henc & Hback
        & Hskel).
  exists file', callee, rest, (ObjectLiteralExpression ps).
  split; [exact Hfile|].
  split; [apply removeProperties_on_text; exact Hret|].
  split; [exact Henc|]. split; [exact Hexports|]. split; [exact Hback|].
  split; [exact Hskel|].
  intro Hreads. unfold decodedConfigurationOfText.
  unfold readsBack in Hreads. rewrite Hreads.
  rewrite (decodedConfiguration_single file' callee ps [] Hexports), Hback.
  reflexivity.
Qed.

(** X9.  Removing no path at all from a text whose recognized export
    decodes to a well-formed configuration [X] still writes the export
    anew: the text returned is the print of a tree whose exported call
    has the literal built from [X] as its one argument.  Where that
    tree reads back, the returned text has the decoded configuration of
    the text that was given. *)
Theorem removing_nothing_keeps_the_configuration
        (content : Text) (X : MetadataMap) (st : Static) :
  decodedConfigurationOfText createSourceFile content = Some (Ok X) ->
  wellFormedConfiguration X = true ->
  exists file' callee rest config,
    exportAssignments (createSourceFile content) = [CallExpression callee rest]
    /\ CypressConfigTransformer.returned
         (CypressConfigTransformer.removeProperties
            createSourceFile printFile content [] st)
       = Ok (printFile file')
    /\ createConfigLiteral X = Ok config
    /\ exportAssignments file' = [CallExpression callee [config]]
    /\ skeleton file' = skeleton (createSourceFile content)
    /\ (readsBack createSourceFile printFile file' ->
        decodedConfigurationOfText createSourceFile (printFile file')
        = decodedConfigurationOfText createSourceFile content).
Proof.
  intros Hdec Hwf.
  assert (Hwf' : wellFormedConfiguration (prune [] "" X) = true)
    by (rewrite prune_nothing; exact Hwf).
  destruct (removal_on_decoded (createSourceFile content) X [] st Hdec Hwf')
    as (file' & callee & ps & rest & Hfile & Hret & Hexports & Henc & Hback
        & Hskel).
  rewrite prune_nothing in Henc, Hback.
  exists file', callee, rest, (ObjectLiteralExpression ps).
  split; [exact Hfile|].
  split; [apply removeProperties_on_text; exact Hret|].
  split; [exact Henc|]. split; [exact Hexports|]. split; [exact Hskel|].
  intro Hreads. unfold decodedConfigurationOfText in *.
  unfold readsBack in Hreads. rewrite Hreads.
  rewrite (decodedConfiguration_single file' callee ps [] Hexports), Hback.
  symmetry. exact Hdec.
Qed.

(** X10.  [removeProperties] is idempotent on texts that read back: on
    a text whose recognized export decodes to [X], with paths that
    leave a well-formed configuration, the call returns the print of a
    tree, and where that tree reads back, removing the same paths from
    the returned text returns that very text again. *)
Theorem removal_is_idempotent
        (content : Text) (X : MetadataMap) (toRemove : list string)
        (st : Static) :
  decodedConfigurationOfText createSourceFile content = Some (Ok X) ->
  wellFormedConfiguration (prune toRemove "" X) = true ->
  exists file',
    CypressConfigTransformer.returned
      (CypressConfigTransformer.removeProperties
         createSourceFile printFile content toRemove st)
    = Ok (printFile file')
    /\ (readsBack createSourceFile printFile file' ->
        forall st',
          CypressConfigTransformer.returned
            (CypressConfigTransformer.removeProperties
               createSourceFile printFile (printFile file') toRemove st')
          = Ok (printFile file')).
Proof.
  intros Hdec Hwf.
  destruct (removal_on_decoded (createSourceFile content) X toRemove st Hdec Hwf)
    as (file1 & callee & ps & rest & _ & Hret & Hexports & Henc & Hback & Hskel).
  exists file1. split; [apply removeProperties_on_text; exact Hret|].
  intros Hreads st'. apply removeProperties_on_text.
  unfold readsBack in Hreads. rewrite Hreads.
  assert (Hdec1 : decodedConfiguration file1
                  = Some (Ok (prune toRemove "" X))).
  { rewrite (decodedConfiguration_single file1 callee ps [] Hexports), Hback.
    reflexivity. }
  assert (Hwf1 : wellFormedConfiguration
                   (prune toRemove "" (prune toRemove "" X)) = true)
    by (rewrite prune_twice; exact Hwf).
  destruct (removal_on_decoded file1 _ toRemove st' Hdec1 Hwf1)
    as (file2 & callee2 & ps2 & rest2 & Hexports1 & Hret2 & Hexports2
        & Henc2 & _ & Hskel2).
  rewrite Hret2. f_equal.
  apply skeleton_and_exports_determine; [exact Hskel2|].
  rewrite Hexports in Hexports1. inversion Hexports1; subst callee2 rest2.
  rewrite prune_twice, Henc in Henc2. inversion Henc2; subst ps2.
  rewrite Hexports2, Hexports. reflexivity.
Qed.

(** X19.  The overwrite is idempotent on texts that read back: for
    every text, new configuration and tree [file1] that the first
    [addOrUpdateProperties] with [overwrite = true] hands to the
    printer, if [file1] reads back, then the second application, on the
    text the first one returned, returns that very text again, so the
    two texts have the same decoded configuration. *)
Theorem overwrite_is_idempotent_on_text_that_reads_back
        (content : Text) (C : list (string * Value)) (st : Static)
        (file1 : SourceFile) :
  returned (addOrUpdateProperties (createSourceFile content) C true st)
  = Ok file1 ->
  readsBack createSourceFile printFile file1 ->
  CypressConfigTransformer.returned
    (CypressConfigTransformer.addOrUpdateProperties
       createSourceFile printFile content C true st)
  = Ok (printFile file1)
  /\ forall st',
      CypressConfigTransformer.returned
        (CypressConfigTransformer.addOrUpdateProperties
           createSourceFile printFile (printFile file1) C true st')
      = Ok (printFile file1).
Proof.
  intros Hret Hreads.
  split; [apply addOrUpdateProperties_on_text; exact Hret|].
  intro st'. apply addOrUpdateProperties_on_text.
  unfold readsBack in Hreads. rewrite Hreads.
  destruct (addOrUpdateProperties (createSourceFile content) C true st)
    as [[file1' st1]|err] eqn:H; simpl in Hret; [|discriminate].
  inversion Hret; subst file1'.
  exact (addOrUpdateProperties_overwrite_twice _ _ _ _ _ st' H).
Qed.

End EntryPointsOnText.

(** The witnesses take trees for texts, with a parser and a printer
    that do nothing; every tree reads back then. *)

Lemma overwrite_writes_the_new_configuration_witness :
  exists file',
    CypressConfigTransformer.returned
      (CypressConfigTransformer.addOrUpdateProperties
         (fun t : SourceFile => t) (fun t : SourceFile => t)
         (defineConfig config_component_devServer)
         [("baseUrl", VString "http://overwrite:8080");
          ("e2e", VObject [("video", VBoolean false)])]
         true st0) = Ok file'
    /\ exportAssignments file'
       = [CallExpression (Identifier "defineConfig")
            [ObjectLiteralExpression
               [("baseUrl", StringLiteral "http://overwrite:8080");
                ("e2e", ObjectLiteralExpression [("video", FalseKeyword)])]]]
    /\ decodedConfigurationOfText (fun t : SourceFile => t) file'
       = Some (Ok [("baseUrl", VString "http://overwrite:8080");
                   ("e2e", VMap [("video", VBoolean false)])]).
Proof.
  destruct (overwrite_writes_the_new_configuration
              SourceFile (fun t => t) (fun t => t)
              (defineConfig config_component_devServer)
              (Identifier "defineConfig") [config_component_devServer]
              [("baseUrl", VString "http://overwrite:8080");
               ("e2e", VObject [("video", VBoolean false)])]
              st0 eq_refl eq_refl eq_refl)
    as (file' & config & Hret & Henc & Hexports & _ & _ & Hback).
  exists file'. split; [exact Hret|]. split; [|exact (Hback eq_refl)].
  rewrite Hexports. inversion Henc. reflexivity.
Defined.

Lemma removal_is_pruning_witness :
  exists file',
    CypressConfigTransformer.returned
      (CypressConfigTransformer.removeProperties
         (fun t : SourceFile => t) (fun t : SourceFile => t)
         (defineConfig config_component_devServer)
         ["component.devServer"] st0) = Ok file'
    /\ exportAssignments file'
       = [CallExpression (Identifier "defineConfig")
            [ObjectLiteralExpression
               [("component", ObjectLiteralExpression [])]]]
    /\ decodedConfigurationOfText (fun t : SourceFile => t) file'
       = Some (Ok [("component", VMap [])]).
Proof.
  destruct (removal_is_pruning
              SourceFile (fun t => t) (fun t => t)
              (defineConfig config_component_devServer)
              [("component",
                VMap [("devServer", devServerRecord "tsconfig.json" "babel")])]
              ["component.devServer"] st0 eq_refl eq_refl)
    as (file' & callee & rest & config & Hfile & Hret & Henc & Hexports & _ & _
        & Hback).
  exists file'. split; [exact Hret|]. split; [|exact (Hback eq_refl)].
  rewrite Hexports. inversion Hfile. inversion Henc. reflexivity.
Defined.

Lemma removing_nothing_keeps_the_configuration_witness :
  exists file',
    CypressConfigTransformer.returned
      (CypressConfigTransformer.removeProperties
         (fun t : SourceFile => t) (fun t : SourceFile => t)
         (defineConfig config_a_bxy) [] st0) = Ok file'
    /\ decodedConfigurationOfText (fun t : SourceFile => t) file'
       = Some (Ok decoded_a_bxy).
Proof.
  destruct (removing_nothing_keeps_the_configuration
              SourceFile (fun t => t) (fun t => t)
              (defineConfig config_a_bxy) decoded_a_bxy st0 eq_refl eq_refl)
    as (file' & callee & rest & config & _ & Hret & _ & _ & _ & Hback).
  exists file'. split; [exact Hret | exact (Hback eq_refl)].
Defined.

Lemma removal_is_idempotent_witness :
  exists file',
    CypressConfigTransformer.returned
      (CypressConfigTransformer.removeProperties
         (fun t : SourceFile => t) (fun t : SourceFile => t)
         (defineConfig config_a_bxy) ["b.x"] st0) = Ok file'
    /\ CypressConfigTransformer.returned
         (CypressConfigTransformer.removeProperties
            (fun t : SourceFile => t) (fun t : SourceFile => t)
            file' ["b.x"] st0) = Ok file'.
Proof.
  destruct (removal_is_idempotent
              SourceFile (fun t => t) (fun t => t)
              (defineConfig config_a_bxy) decoded_a_bxy
              ["b.x"] st0 eq_refl eq_refl)
    as (file' & Hret & Htwice).
  exists file'. split; [exact Hret | exact (Htwice eq_refl st0)].
Defined.

Lemma overwrite_is_idempotent_on_text_that_reads_back_witness :
  CypressConfigTransformer.returned
    (CypressConfigTransformer.addOrUpdateProperties
       (fun t : SourceFile => t) (fun t : SourceFile => t)
       (defineConfig
          (ObjectLiteralExpression
             [("b", ObjectLiteralExpression [("x", num 9)])]))
       newConfig_bx9 true st0)
  = Ok (defineConfig
          (ObjectLiteralExpression
             [("b", ObjectLiteralExpression [("x", num 9)])])).
Proof.
  exact (proj2 (overwrite_is_idempotent_on_text_that_reads_back
                  SourceFile (fun t => t) (fun t => t)
                  (defineConfig config_a_bxy) newConfig_bx9 st0
                  (defineConfig
                     (ObjectLiteralExpression
                        [("b", ObjectLiteralExpression [("x", num 9)])]))
                  eq_refl eq_refl) st0).
Defined.

(** * Properties of the node executor *)

Set Warnings "-notation-for-abbreviation".

Section ExecutorFacts.

Import NodeExecutor.

Variable InspectType_Inspect : string.
Variable sourceMapSupportRegister : string.
Variable numberToString : N -> string.
Variable treeKill : nat -> option KillError.

Notation getExecArgv' :=
  (getExecArgv InspectType_Inspect sourceMapSupportRegister numberToString).
Notation runProcess' :=
  (runProcess InspectType_Inspect sourceMapSupportRegister numberToString).
Notation killProcess' := (killProcess treeKill).
Notation handleBuildEvent' :=
  (handleBuildEvent InspectType_Inspect sourceMapSupportRegister numberToString
                    treeKill).
Notation onBuildEvent' :=
  (onBuildEvent InspectType_Inspect sourceMapSupportRegister numberToString
                treeKill).
Notation buildLoop' :=
  (buildLoop InspectType_Inspect sourceMapSupportRegister numberToString
             treeKill).
Notation nodeExecutor' :=
  (nodeExecutor InspectType_Inspect sourceMapSupportRegister numberToString
                treeKill).

Lemma getExecArgv_keeps_watch (options : NodeExecutorOptions) :
  watch (snd (getExecArgv' options)) = watch options.
Proof.
  unfold getExecArgv. destruct options as [a r i h p w t].
  destruct i as [| |s]; simpl; try reflexivity.
  - destruct (truthy InspectType_Inspect); reflexivity.
  - destruct (truthy s); reflexivity.
Qed.

Lemma killProcess_stops (w : World) :
  subProcess (killProcess' w) = None.
Proof.
  unfold killProcess. destruct (subProcess w) eqn:Hs; [reflexivity | exact Hs].
Qed.

Lemma killProcess_counts (w : World) :
  forks (killProcess' w) = forks w
  /\ kills (killProcess' w) = kills w + tracked w.
Proof.
  unfold killProcess, forks, kills, tracked.
  destruct (subProcess w) as [pid|]; [|split; lia].
  destruct (treeKill pid) as [[items|message]|]; simpl;
    repeat match goal with
           | |- context [if ?b then _ else _] => destruct b
           end;
    simpl; rewrite ?filter_app, ?length_app; simpl; split; lia.
Qed.

Lemma runProcess_running (event : ExecutorEvent)
      (options : NodeExecutorOptions) (w : World) :
  running (fst (runProcess' event options w))
  = running w || success event.
Proof.
  unfold runProcess, running. destruct (subProcess w) eqn:Hs; simpl;
    [rewrite Hs; reflexivity|].
  destruct (success event); simpl; [|rewrite Hs; reflexivity].
  destruct (getExecArgv' options). reflexivity.
Qed.

Lemma runProcess_counts (event : ExecutorEvent)
      (options : NodeExecutorOptions) (w : World) :
  forks (fst (runProcess' event options w)) + tracked w
  = forks w + tracked (fst (runProcess' event options w))
  /\ kills (fst (runProcess' event options w)) = kills w.
Proof.
  unfold runProcess, forks, kills, tracked.
  destruct (subProcess w) eqn:Hs; simpl; [rewrite Hs; split; lia|].
  destruct (success event); simpl; [|rewrite Hs; split; lia].
  destruct (getExecArgv' options). simpl.
  rewrite !filter_app, !length_app. simpl. split; lia.
Qed.

Lemma emit_counts (e : Effect) (w : World) :
  isFork e = false -> isTreeKill e = false ->
  subProcess (emit e w) = subProcess w
  /\ forks (emit e w) = forks w /\ kills (emit e w) = kills w.
Proof.
  intros Hf Hk. unfold emit, forks, kills. simpl.
  rewrite !filter_app. simpl. rewrite Hf, Hk, !app_nil_r. auto.
Qed.

Lemma onBuildEvent_running (event : ExecutorEvent)
      (options : NodeExecutorOptions) (w : World) :
  running (fst (onBuildEvent' event options w)) = success event.
Proof.
  unfold onBuildEvent, handleBuildEvent. rewrite runProcess_running.
  destruct (success event) eqn:Hs; simpl; [apply orb_true_r|].
  rewrite orb_false_r.
  match goal with
  | |- context [emit ?a (emit ?b w)] => set (w1 := emit a (emit b w))
  end.
  assert (H1 : subProcess w1 = subProcess w) by reflexivity.
  destruct (subProcess w) eqn:Hw; unfold running.
  - rewrite killProcess_stops. reflexivity.
  - rewrite H1. reflexivity.
Qed.

Lemma handleBuildEvent_counts (event : ExecutorEvent)
      (options : NodeExecutorOptions) (w : World) :
  forks w = kills w + tracked w ->
  forks (fst (handleBuildEvent' event options w))
  = kills (fst (handleBuildEvent' event options w))
    + tracked (fst (handleBuildEvent' event options w)).
Proof.
  intro Hinv. unfold handleBuildEvent.
  assert (H2 : forall w2, forks w2 = kills w2 + tracked w2 ->
                          forks (fst (runProcess' event options w2))
                          = kills (fst (runProcess' event options w2))
                            + tracked (fst (runProcess' event options w2))).
  { intros w2 Hw2.
    destruct (runProcess_counts event options w2) as (Hf & Hk). lia. }
  destruct ((negb (success event) || watch options)
            && match subProcess w with Some _ => true | None => false end);
    apply H2; [|exact Hinv].
  destruct (killProcess_counts w) as (Hf & Hk).
  assert (Ht : tracked (killProcess' w) = 0)
    by (unfold tracked; rewrite killProcess_stops; reflexivity).
  lia.
Qed.

Lemma onBuildEvent_counts (event : ExecutorEvent)
      (options : NodeExecutorOptions) (w : World) :
  forks w = kills w + tracked w ->
  forks (fst (onBuildEvent' event options w))
  = kills (fst (onBuildEvent' event options w))
    + tracked (fst (onBuildEvent' event options w)).
Proof.
  intro Hinv. unfold onBuildEvent. apply handleBuildEvent_counts.
  destruct (success event); simpl; [exact Hinv|].
  unfold tracked.
  destruct (emit_counts (LoggerError
                           "There was an error with the build. See above.")
                        w eq_refl eq_refl) as (Ha & Hb & Hc).
  destruct (emit_counts (LoggerInfo (outfile event ++ " was not restarted."))
                        (emit (LoggerError
                                 "There was an error with the build. See above.")
                              w) eq_refl eq_refl) as (Ha' & Hb' & Hc').
  rewrite Ha', Hb', Hc', Ha, Hb, Hc. exact Hinv.
Qed.

Lemma buildLoop_app (events1 events2 : list ExecutorEvent) :
  forall options w,
    buildLoop' (events1 ++ events2) options w
    = buildLoop' events2 (snd (buildLoop' events1 options w))
                 (fst (buildLoop' events1 options w)).
Proof.
  induction events1 as [|e es IH]; intros options w; [reflexivity|].
  simpl. destruct (onBuildEvent' e options w) as [w1 o1]. apply IH.
Qed.

(** X13.  After every build event the executor has a child process if
    and only if that build succeeded, whatever the options are,
    whatever ran before and whatever [treeKill] answered: a failed
    build stops the child and starts none, a successful one leaves one
    running. *)
Theorem child_runs_iff_last_build_succeeded
        (events : list ExecutorEvent) (event : ExecutorEvent)
        (options : NodeExecutorOptions) (w : World) :
  running (fst (buildLoop' (events ++ [event]) options w)) = success event.
Proof.
  rewrite buildLoop_app. simpl.
  destruct (onBuildEvent' event _ _) as [w1 o1] eqn:H.
  change w1 with (fst (w1, o1)). rewrite <- H. apply onBuildEvent_running.
Qed.







Lemma runProcess_keeps_watch (event : ExecutorEvent)
      (options : NodeExecutorOptions) (w : World) :
  watch (snd (runProcess' event options w)) = watch options.
Proof.
  unfold runProcess. destruct (subProcess w); [reflexivity|].
  destruct (negb (success event)); [reflexivity|].
  pose proof (getExecArgv_keeps_watch options) as H.
  destruct (getExecArgv' options). exact H.
Qed.

Lemma onBuildEvent_success (event : ExecutorEvent)
      (options : NodeExecutorOptions) (w : World) :
  success event = true ->
  let w' := fst (onBuildEvent' event options w) in
  watch (snd (onBuildEvent' event options w)) = watch options
  /\ tracked w' = 1
  /\ (if watch options
      then forks w' = forks w + 1 /\ kills w' = kills w + tracked w
      else forks w' + tracked w = forks w + 1 /\ kills w' = kills w).
Proof.
  intro Hs. cbv zeta.
  assert (Hrun : tracked (fst (onBuildEvent' event options w)) = 1).
  { pose proof (onBuildEvent_running event options w) as H.
    rewrite Hs in H. unfold running in H. unfold tracked.
    destruct (subProcess (fst (onBuildEvent' event options w)));
      [reflexivity | discriminate]. }
  split; [|split; [exact Hrun|]].
  - unfold onBuildEvent, handleBuildEvent. apply runProcess_keeps_watch.
  - revert Hrun. unfold onBuildEvent, handleBuildEvent. rewrite Hs. simpl.
    destruct (watch options); simpl.
    + destruct (subProcess w) eqn:Hw.
      * destruct (killProcess_counts w) as (Hf & Hk).
        destruct (runProcess_counts event options (killProcess' w))
          as (Hf' & Hk').
        assert (Ht : tracked (killProcess' w) = 0)
          by (unfold tracked; rewrite killProcess_stops; reflexivity).
        intro Hrun. lia.
      * destruct (runProcess_counts event options w) as (Hf' & Hk').
        assert (Ht : tracked w = 0) by (unfold tracked; rewrite Hw; reflexivity).
        intro Hrun. lia.
    + assert (Hsame : (if match subProcess w with
                           | Some _ => false
                           | None => false
                           end then killProcess' w else w) = w)
        by (destruct (subProcess w); reflexivity).
      destruct (subProcess w) eqn:Hw;
        destruct (runProcess_counts event options w) as (Hf' & Hk');
        intro Hrun; lia.
Qed.

(** X15.  The option [watch] decides whether a new build restarts the
    child.  Over builds that all succeed, without [watch] the child of
    the first build is kept (one fork if none ran before, none
    otherwise, and no kill); with [watch] every build forks a child
    anew, after a kill of the one that ran. *)
Theorem watch_decides_restarts
        (events : list ExecutorEvent) (options : NodeExecutorOptions)
        (w : World) :
  forallb success events = true ->
  events <> [] ->
  let w' := fst (buildLoop' events options w) in
  if watch options
  then forks w' = forks w + length events
       /\ kills w' + 1 = kills w + tracked w + length events
  else forks w' + tracked w = forks w + 1 /\ kills w' = kills w.
Proof.
  cbv zeta. revert options w.
  induction events as [|e es IH]; intros options w Hall Hne;
    [contradiction|].
  simpl in Hall. apply andb_true_iff in Hall. destruct Hall as [He Hes].
  simpl. destruct (onBuildEvent_success e options w He) as (Hw & Ht & Hstep).
  destruct (onBuildEvent' e options w) as [w1 o1]. simpl in Hw, Ht, Hstep.
  destruct es as [|e2 es].
  - simpl. destruct (watch options); lia.
  - specialize (IH o1 w1 Hes ltac:(discriminate)). rewrite Hw in IH.
    destruct (watch options); simpl length in *; lia.
Qed.

(** X16.  [getExecArgv] always starts with [-r], the source-map
    module and the runtime arguments in their order, and adds at most
    one argument after them.  [inspect: true] gives what
    [inspect: InspectType.Inspect] gives, and is replaced by it in the
    options, so that a second call on the options just returned
    returns the same arguments and leaves the options alone. *)
Theorem getExecArgv_shape (options : NodeExecutorOptions) :
  (exists flag,
      fst (getExecArgv' options)
      = "-r" :: sourceMapSupportRegister :: runtimeArgs options ++ flag
      /\ length flag <= 1)
  /\ getExecArgv'
       (mkOptions (args options) (runtimeArgs options) InspectTrue
                  (host options) (port options) (watch options)
                  (waitUntilTargets options))
     = getExecArgv'
         (mkOptions (args options) (runtimeArgs options)
                    (InspectAs InspectType_Inspect)
                    (host options) (port options) (watch options)
                    (waitUntilTargets options))
  /\ getExecArgv' (snd (getExecArgv' options)) = getExecArgv' options.
Proof.
  destruct options as [a r i h p w t]. unfold getExecArgv. simpl.
  split; [|split].
  - destruct i as [| |s]; simpl.
    + exists []. rewrite app_nil_r. split; [reflexivity | simpl; lia].
    + destruct (truthy InspectType_Inspect); simpl.
      * eexists. split; [reflexivity | simpl; lia].
      * exists []. rewrite app_nil_r. split; [reflexivity | simpl; lia].
    + destruct (truthy s); simpl.
      * eexists. split; [reflexivity | simpl; lia].
      * exists []. rewrite app_nil_r. split; [reflexivity | simpl; lia].
  - reflexivity.
  - destruct i as [| |s]; simpl; try reflexivity.
    + destruct (truthy InspectType_Inspect) eqn:Ht; simpl; rewrite ?Ht;
        reflexivity.
    + destruct (truthy s) eqn:Ht; simpl; rewrite ?Ht; reflexivity.
Qed.

(** X17.  The awaited targets gate the build.  When targets are
    awaited and one of them reported a failure, [nodeExecutor] throws
    an error that names the first target that failed, after logging
    ["throw"] and before any build event is handled: nothing is forked
    or killed.  When none is awaited, or all succeeded, every build
    event is handled and yielded. *)
Theorem awaited_targets_gate_the_build
        (options : NodeExecutorOptions) (results : list bool)
        (events : list ExecutorEvent) (w : World) :
  (forall passed rest,
      waitUntilTargets options <> [] ->
      results = passed ++ false :: rest ->
      forallb (fun r => r) passed = true ->
      nodeExecutor' options results events w
      = Thrown ("Wait until target failed: "
                  ++ nth (length passed) (waitUntilTargets options) "undefined"
                  ++ ".")%string
               (emit (ConsoleLog "throw") w))
  /\ (waitUntilTargets options = [] \/ forallb (fun r => r) results = true ->
      nodeExecutor' options results events w
      = Yielded events (fst (buildLoop' events options w))
                (snd (buildLoop' events options w))).
Proof.
  split.
  - intros passed rest Htargets Hresults Hpassed. unfold nodeExecutor.
    destruct (waitUntilTargets options) as [|t ts] eqn:Ht; [contradiction|].
    rewrite <- Ht. subst results.
    assert (H : forall i,
               firstFailure (waitUntilTargets options) i
                            (passed ++ false :: rest)
               = Some ("Wait until target failed: "
                         ++ nth (i + length passed) (waitUntilTargets options)
                                "undefined" ++ ".")%string).
    { clear Htargets Ht. induction passed as [|r passed IH]; intro i; simpl.
      - rewrite Nat.add_0_r. reflexivity.
      - simpl in Hpassed. apply andb_true_iff in Hpassed.
        destruct Hpassed as [Hr Hpassed]. rewrite Hr.
        rewrite (IH Hpassed (S i)). simpl.
        rewrite Nat.add_succ_r. reflexivity. }
    rewrite (H 0). reflexivity.
  - intros Hok. unfold nodeExecutor.
    assert (H : match waitUntilTargets options with
                | [] => None
                | _ :: _ => firstFailure (waitUntilTargets options) 0 results
                end = None).
    { destruct Hok as [->|Hall]; [reflexivity|].
      destruct (waitUntilTargets options) as [|t ts]; [reflexivity|].
      generalize 0. generalize (t :: ts). intros targets.
      induction results as [|r results IH]; intro i; [reflexivity|].
      simpl in Hall. apply andb_true_iff in Hall. destruct Hall as [Hr Hall].
      simpl. rewrite Hr. exact (IH Hall (S i)). }
    rewrite H. destruct (buildLoop' events options w). reflexivity.
Qed.

End ExecutorFacts.


Lemma watch_decides_restarts_witness :
  let w :=
    fst (NodeExecutor.buildLoop
           "inspect" "register.js" (fun _ => "9229") (fun _ => None)
           [NodeExecutor.mkEvent true "main.js";
            NodeExecutor.mkEvent true "main.js"]
           (NodeExecutor.mkOptions [] [] NodeExecutor.InspectFalse "localhost"
                                   9229 false [])
           (NodeExecutor.mkWorld None 0 [])) in
  NodeExecutor.forks w + 0 = 0 + 1 /\ NodeExecutor.kills w = 0.
Proof.
  exact (watch_decides_restarts
           "inspect" "register.js" (fun _ => "9229") (fun _ => None)
           [NodeExecutor.mkEvent true "main.js";
            NodeExecutor.mkEvent true "main.js"]
           (NodeExecutor.mkOptions [] [] NodeExecutor.InspectFalse "localhost"
                                   9229 false [])
           (NodeExecutor.mkWorld None 0 [])
           eq_refl ltac:(discriminate)).
Defined.

Lemma awaited_targets_gate_the_build_witness :
  NodeExecutor.nodeExecutor
    "inspect" "register.js" (fun _ => "9229") (fun _ => None)
    (NodeExecutor.mkOptions [] [] NodeExecutor.InspectFalse "localhost" 9229
                            false ["api:build"; "db:serve"])
    [true; false] [NodeExecutor.mkEvent true "main.js"]
    (NodeExecutor.mkWorld None 0 [])
  = NodeExecutor.Thrown
      "Wait until target failed: db:serve."
      (NodeExecutor.mkWorld None 0 [NodeExecutor.ConsoleLog "throw"]).
Proof.
  apply (proj1 (awaited_targets_gate_the_build
                  "inspect" "register.js" (fun _ => "9229") (fun _ => None)
                  (NodeExecutor.mkOptions [] [] NodeExecutor.InspectFalse
                                          "localhost" 9229 false
                                          ["api:build"; "db:serve"])
                  [true; false] [NodeExecutor.mkEvent true "main.js"]
                  (NodeExecutor.mkWorld None 0 []))
               [true] []).
  - discriminate.
  - reflexivity.
  - reflexivity.
Defined.

(** * Properties of the conversion *)

Section ConversionFacts.

Import ConversionUtil.

Variable tree_exists : string -> bool.
Variable joinPathFragments : list string -> string.

Lemma obj_get_set_same (k : string) (v : Json) (o : JsonObject) :
  obj_get k (obj_set k v o) = Some v.
Proof.
  induction o as [|[k' w] o IH]; simpl.
  - rewrite String.eqb_refl. reflexivity.
  - destruct (String.eqb_spec k k') as [->|Hne]; simpl.
    + rewrite String.eqb_refl. reflexivity.
    + destruct (String.eqb_spec k k'); [contradiction | exact IH].
Qed.

Lemma obj_get_set_other (k n : string) (v : Json) (o : JsonObject) :
  k <> n -> obj_get k (obj_set n v o) = obj_get k o.
Proof.
  intro Hne. induction o as [|[k' w] o IH]; simpl.
  - destruct (String.eqb_spec k n); [contradiction | reflexivity].
  - destruct (String.eqb_spec n k') as [->|Hn]; simpl.
    + destruct (String.eqb_spec k k'); [contradiction | reflexivity].
    + destruct (String.eqb_spec k k'); [reflexivity | exact IH].
Qed.

Lemma obj_get_restOf (k : string) (names : list string) (o : JsonObject) :
  obj_get k (restOf names o)
  = if existsb (String.eqb k) names then None else obj_get k o.
Proof.
  unfold restOf. induction o as [|[k' w] o IH]; simpl.
  - destruct (existsb (String.eqb k) names); reflexivity.
  - destruct (String.eqb k k') eqn:Hkk.
    + apply String.eqb_eq in Hkk. subst k'.
      destruct (existsb (String.eqb k) names) eqn:Hk; simpl.
      * rewrite IH. reflexivity.
      * rewrite String.eqb_refl. reflexivity.
    + destruct (existsb (String.eqb k') names); simpl.
      * exact IH.
      * rewrite Hkk. exact IH.
Qed.

(** X18.  What [createNewCypressConfig] puts into the [e2e] section,
    key by key: [specPattern] is always the new pattern, whatever the
    old file said; [supportFile] and [integrationFolder] are the new
    places when the old default places exist in the tree, and
    otherwise the values of the old file (the new places when it had
    none); [baseUrl] and [modifyObstructiveCode] are never there;
    every other key has the value of the old file.  At the top,
    [baseUrl] is kept only when it is truthy, and the old
    configuration is returned as it was read. *)
Theorem createNewCypressConfig_contents
        (sourceRoot : string) (cypressConfigJson : JsonObject) (k : string) :
  let result :=
    createNewCypressConfig tree_exists joinPathFragments sourceRoot
                           cypressConfigJson in
  obj_get k (e2eOf (fst result))
  = (if String.eqb k "integrationFolder"
     then Some (newIntegrationFolder tree_exists joinPathFragments sourceRoot
                                     cypressConfigJson)
     else if String.eqb k "supportFile"
     then Some (newSupportFile tree_exists joinPathFragments sourceRoot
                               cypressConfigJson)
     else if String.eqb k "specPattern" then Some specPattern
     else if String.eqb k "baseUrl" || String.eqb k "modifyObstructiveCode"
     then None
     else obj_get k cypressConfigJson)
  /\ obj_get "baseUrl" (fst result)
     = (if truthy (withDefault JNull (obj_get "baseUrl" cypressConfigJson))
        then obj_get "baseUrl" cypressConfigJson
        else None)
  /\ snd result = cypressConfigJson.
Proof.
  cbv zeta. unfold createNewCypressConfig. cbn [fst snd].
  split; [|split; [|reflexivity]].
  - unfold e2eOf. rewrite obj_get_set_same.
    destruct (String.eqb_spec k "integrationFolder") as [->|H1].
    { apply obj_get_set_same. }
    rewrite (obj_get_set_other _ _ _ _ H1).
    destruct (String.eqb_spec k "supportFile") as [->|H2].
    { apply obj_get_set_same. }
    rewrite (obj_get_set_other _ _ _ _ H2).
    destruct (String.eqb_spec k "specPattern") as [->|H3].
    { apply obj_get_set_same. }
    rewrite (obj_get_set_other _ _ _ _ H3), obj_get_restOf.
    unfold destructured. cbn [existsb].
    apply String.eqb_neq in H1. apply String.eqb_neq in H2.
    rewrite H1, H2, orb_false_r.
    destruct (String.eqb k "baseUrl" || String.eqb k "modifyObstructiveCode");
      reflexivity.
  - destruct (obj_get "baseUrl" cypressConfigJson) as [b|]; simpl;
      [|reflexivity].
    destruct (truthy b); reflexivity.
Qed.

End ConversionFacts.
